(** * hyperscanner: batching and streaming layer of hypergrep

    Shallow embedding of [src/hypergrep/lib/c/hyperscanner.c]: the
    occurrence callback [hs_callback], the read/scan loop [hyperscan_gz],
    the session [hyperscan] with its construction and cleanup, and the
    stand-alone driver [main].

    Hyperscan (pattern compilation, [hs_scan]) and zlib ([gzopen],
    [gzgets]) are external libraries.  A compiled database is represented
    by what it reports for a byte span; a file by its decompressed bytes,
    split into the successive reads of [gzgets]. *)

From Stdlib Require Import ZArith Lia Bool List.
From Stdlib.Strings Require Import String Byte.
From stdpp Require Import base list sorting.
Import ListNotations.
Open Scope Z_scope.

(** ** C integer conversions *)

Module CInt.

Definition to_uint (x : Z) : Z := x mod 2 ^ 32.
Definition to_int (x : Z) : Z := (x + 2 ^ 31) mod 2 ^ 32 - 2 ^ 31.
Definition to_ull (x : Z) : Z := x mod 2 ^ 64.

Definition INT_MAX : Z := 2 ^ 31 - 1.
Definition ULLONG_MAX : Z := 2 ^ 64 - 1.

End CInt.
Import CInt.

(** ** Return codes ([hyperscanner_ret_t]) *)

Definition HYPERSCANNER_COMPILE_MEM : Z := 1.
Definition HYPERSCANNER_COMPILE : Z := 2.
Definition HYPERSCANNER_SCRATCH : Z := 3.
Definition HYPERSCANNER_DB : Z := 4.
Definition HYPERSCANNER_STATE_MEM : Z := 5.
Definition HYPERSCANNER_GZ_OPEN : Z := 6.
Definition HYPERSCANNER_SCAN : Z := 7.

(** ** Character buffers *)

Module CStr.

Definition is_nul (b : byte) : bool := Byte.eqb b x00.
Definition newline : byte := x0a.

(** The string starting at the head of [l]: the bytes before the first
    zero byte.  [None] when [l] holds no zero byte, in which case
    [strlen] and [strcpy] run past the end of the buffer. *)
Fixpoint until_nul (l : list byte) : option (list byte) :=
  match l with
  | [] => None
  | b :: r => if is_nul b then Some [] else cons b <$> until_nul r
  end.

(** The string a [char*] at offset [off] of [buf] points to. *)
Definition c_string (buf : list byte) (off : nat) : option (list byte) :=
  until_nul (drop off buf).

(** Position of the first non-zero byte of [l], counted from [i]. *)
Fixpoint first_nonzero (l : list byte) (i : nat) : option nat :=
  match l with
  | [] => None
  | b :: r => if is_nul b then first_nonzero r (S i) else Some i
  end.

End CStr.
Import CStr.

(** ** The LineSource: [gzgets]

    [gzgets(file, buf, len)] copies bytes up to and including the next
    newline, at most [len - 1] of them, appends a zero byte, and returns
    [Z_NULL] when no byte was read (or when [file] or [buf] is null, or
    [len < 1]). *)

Module Gz.

(** One read: at most [n] bytes, ending after the first newline. *)
Fixpoint read_line (n : nat) (s : list byte) : list byte * list byte :=
  match n, s with
  | O, _ => ([], s)
  | _, [] => ([], [])
  | S n', b :: s' =>
      if Byte.eqb b newline then ([b], s')
      else let '(l, r) := read_line n' s' in (b :: l, r)
  end.

(** The successive reads of a whole stream, until a read yields nothing. *)
Fixpoint reads (fuel n : nat) (s : list byte) : list (list byte) :=
  match fuel with
  | O => []
  | S fuel' =>
      match read_line n s with
      | ([], _) => []
      | (l, r) => l :: reads fuel' n r
      end
  end.

(** The lines [gzgets] returns for [content] with a buffer of [len] bytes. *)
Definition gzlines (len : Z) (content : list byte) : list (list byte) :=
  if len <? 1 then [] else reads (length content) (Z.to_nat (len - 1)) content.

(** What a successful [gzgets] leaves in [buf]: the bytes read, the
    terminating zero, and whatever the buffer held beyond it. *)
Definition store_line (buf l : list byte) : list byte :=
  l ++ x00 :: drop (S (length l)) buf.

End Gz.
Import Gz.

(** ** Results and state *)

(** [hyperscanner_result_t].  [r_line] is the string held by the slot's
    character buffer. *)
Record hyperscanner_result := mk_result {
  r_id : Z;
  r_line_number : Z;
  r_line : list byte
}.

(** [hyperscanner_state_t].  [line] is a pointer into the read buffer,
    kept as an offset ([None] for [Z_NULL]); the [callback] field is the
    caller's [on_event], whose invocations are recorded in [delivered]
    of the session below. *)
Record hyperscanner_state := mk_state {
  match_count : Z;
  line_number : Z;
  line : option nat;
  max_result_index : Z;
  result_index : Z;
  results : list hyperscanner_result
}.

(** One invocation of [on_event(results, result_count)]: the count passed
    and the records the caller can read through the pointer. *)
Record batch := mk_batch {
  result_count : Z;
  batch_results : list hyperscanner_result
}.

Record session := mk_session {
  state : hyperscanner_state;
  delivered : list batch
}.

Inductive fault :=
| RingIndex (i : Z)          (* results[i] outside the allocated array *)
| BadString                  (* null line pointer or unterminated string *)
| Uninitialised (v : string) (* a local read before its initialiser ran *)
| OutOfBounds (v : string) (i : Z) (* v[i] stored outside the array v *).

Inductive outcome (A : Type) :=
| Done (a : A)
| Undefined (f : fault) (a : A).
Arguments Done {A} a.
Arguments Undefined {A} f a.

(** ** [hs_callback] *)

Definition on_event (results : list hyperscanner_result) (count : Z) : batch :=
  mk_batch count (take (Z.to_nat count) results).

Definition hs_callback (buf : list byte) (id : Z) (se : session)
  : outcome session :=
  let st := state se in
  let mc := to_ull (match_count st + 1) in
  let ri := to_int (result_index st + 1) in
  if (0 <=? ri) && (ri <? Z.of_nat (length (results st))) then
    match line st ≫= c_string buf with
    | None => Undefined BadString se
    | Some text =>
        let rs := <[Z.to_nat ri := mk_result id (line_number st) text]> (results st) in
        if to_uint ri =? max_result_index st then
          Done (mk_session
                  (mk_state mc (line_number st) (line st) (max_result_index st) (-1) rs)
                  (delivered se ++ [on_event rs (ri + 1)]))
        else
          Done (mk_session
                  (mk_state mc (line_number st) (line st) (max_result_index st) ri rs)
                  (delivered se))
    end
  else Undefined (RingIndex ri) se.

(** ** The Matcher: a compiled database

    [hs_scan db span] gives the pattern ids of the occurrences found in
    [span], in the order the callback is invoked for them, and whether
    the call returned [HS_SUCCESS]. *)
Record database := mk_database {
  hs_scan : list byte -> list Z * bool
}.

(** The callbacks of one [hs_scan] call.  [hs_callback] always returns 0,
    so the scan is never cut short. *)
Fixpoint run_callbacks (buf : list byte) (ids : list Z) (se : session)
  : outcome session :=
  match ids with
  | [] => Done se
  | i :: rest =>
      match hs_callback buf i se with
      | Done se' => run_callbacks buf rest se'
      | Undefined f se' => Undefined f se'
      end
  end.

(** ** [hyperscan_gz] *)

(** Offset of [state->line] in [buf] after the leading-null strip. *)
Definition line_start (buf : list byte) (buffer_size : Z) : nat :=
  match buf with
  | b0 :: rest =>
      if is_nul b0 then
        match first_nonzero (take (Z.to_nat (buffer_size - 1)) rest) 1 with
        | Some i => i
        | None => O
        end
      else O
  | [] => O
  end.

Record scanner := mk_scanner {
  buf : list byte;
  sess : session;
  scanned : list (list byte)   (* spans handed to [hs_scan], in order *)
}.

Definition set_line (off : option nat) (se : session) : session :=
  let st := state se in
  mk_session
    (mk_state (match_count st) (line_number st) off
              (max_result_index st) (result_index st) (results st))
    (delivered se).

Definition next_line (se : session) : session :=
  let st := state se in
  mk_session
    (mk_state (match_count st) (to_ull (line_number st + 1)) (line st)
              (max_result_index st) (result_index st) (results st))
    (delivered se).

(** The [while (1)] loop over the reads [gzgets] returns. *)
Fixpoint scan_loop (db : database) (buffer_size max_match_count : Z)
    (lines : list (list byte)) (ret : Z) (w : scanner)
  : outcome (Z * scanner) :=
  match lines with
  | [] => Done (ret, w)
  | l :: rest =>
      let b := store_line (buf w) l in
      let off := line_start b buffer_size in
      let se := set_line (Some off) (sess w) in
      match c_string b off with
      | None => Undefined BadString (ret, mk_scanner b se (scanned w))
      | Some span =>
          let '(ids, ok) := hs_scan db span in
          match run_callbacks b ids se with
          | Undefined f se' =>
              Undefined f (ret, mk_scanner b se' (scanned w ++ [span]))
          | Done se' =>
              let w' := mk_scanner b se' (scanned w ++ [span]) in
              if negb ok then Done (HYPERSCANNER_SCAN, w')
              else if (max_match_count >? 0)
                      && (match_count (state se') >=? max_match_count)
              then Done (ret, w')
              else scan_loop db buffer_size max_match_count rest ret
                     (mk_scanner b (next_line se') (scanned w ++ [span]))
          end
      end
  end.

(** ** Resources and the allocator *)

Inductive resource :=
| RState                 (* the hyperscanner_state_t block *)
| RResults               (* the state->results array *)
| RLine (i : nat)        (* state->results[i].line *)
| RDatabase              (* hs_database_t *)
| RScratch               (* hs_scratch_t *)
| RFile                  (* gzFile *)
| RBuf                   (* the read buffer of hyperscan_gz *).

Inductive res_event :=
| Acquire (r : resource)
| Release (r : resource).

(** Which allocations succeed, and the unspecified content of fresh
    memory. *)
Record allocator := mk_allocator {
  state_ok : bool;
  results_ok : bool;
  line_ok : nat -> bool;
  scratch_ok : bool;
  buf_ok : bool;
  fresh_bytes : list byte;
  fresh_result : hyperscanner_result
}.

(** [malloc(n)] of characters: [n] bytes of unspecified content. *)
Definition malloc_bytes (heap : allocator) (n : nat) : list byte :=
  take n (fresh_bytes heap ++ replicate n x00).

(** What a call of [hyperscan] did: the value of [ret], the batches handed
    to [on_event], the spans handed to [hs_scan], and the resources
    acquired and released, each in order. *)
Record report := mk_report {
  ret : Z;
  batches : list batch;
  spans : list (list byte);
  resources : list res_event
}.

(** The reads the loop of [hyperscan_gz] obtains: none when the file
    could not be opened or the read buffer could not be allocated. *)
Definition lines_read (heap : allocator) (file : option (list byte))
    (buffer_size : Z) : list (list byte) :=
  match file with
  | Some content => if buf_ok heap then gzlines buffer_size content else []
  | None => []
  end.

Definition hyperscan_gz (heap : allocator) (file : option (list byte))
    (se : session) (db : database) (buffer_size max_match_count : Z)
  : outcome (Z * scanner) * list res_event :=
  let input_file := match file with Some _ => true | None => false end in
  let ret := if input_file then 0 else HYPERSCANNER_GZ_OPEN in
  let opened := if input_file then [Acquire RFile] else [] in
  let closed := if input_file then [Release RFile] else [] in
  let alloc := if buf_ok heap then [Acquire RBuf] else [] in
  let freed := if buf_ok heap then [Release RBuf] else [] in
  let lines := lines_read heap file buffer_size in
  let w := mk_scanner (malloc_bytes heap (Z.to_nat buffer_size)) se [] in
  match scan_loop db buffer_size max_match_count lines ret w with
  | Done r => (Done r, opened ++ alloc ++ closed ++ freed)
  | Undefined f r => (Undefined f r, opened ++ alloc)
  end.

(** ** [hyperscan] *)

(** The [cleanup:] block.  A local whose initialiser was jumped over is
    [None]; a pointer is [Some false] when null. *)
Definition cleanup (ret : Z) (state_ptr : bool) (results_allocated : option Z)
    (scratch db : option bool) (rep : report) : outcome report :=
  match results_allocated with
  | None =>
      Undefined (Uninitialised "results_allocated")
        (mk_report ret (batches rep) (spans rep) (resources rep))
  | Some n =>
      let lines := map (fun i => Release (RLine i)) (seq 0 (Z.to_nat n)) in
      let st := if state_ptr then [Release RState] else [] in
      let rep1 := mk_report ret (batches rep) (spans rep)
                            (resources rep ++ lines ++ st) in
      match scratch with
      | None => Undefined (Uninitialised "scratch") rep1
      | Some s =>
          match db with
          | None => Undefined (Uninitialised "db") rep1
          | Some d =>
              Done (mk_report ret (batches rep) (spans rep)
                      (resources rep1
                       ++ (if s then [Release RScratch] else [])
                       ++ (if d then [Release RDatabase] else [])))
          end
      end
  end.

(** The per-slot allocation loop: the index of the first failing
    allocation among slots [i .. i + n - 1], or [None] when all succeed. *)
Fixpoint alloc_lines (heap : allocator) (n i : nat) : option nat :=
  match n with
  | O => None
  | S n' => if line_ok heap i then alloc_lines heap n' (S i) else Some i
  end.

(** [buffer_count] after the adjustment at the head of [hyperscan]. *)
Definition effective_count (buffer_count max_match_count : Z) : Z :=
  if (max_match_count >? 0) && (max_match_count <? to_ull buffer_count)
  then to_int max_match_count
  else buffer_count.

(** The end-of-session flush. *)
Definition flush (se : session) : list batch :=
  if result_index (state se) =? -1 then delivered se
  else delivered se
       ++ [on_event (results (state se)) (result_index (state se) + 1)].

(** [compiled] is what [init_hs_db] obtains for the patterns, flags and
    ids passed: [None] when [hs_compile_multi] fails. *)
Definition hyperscan (heap : allocator) (file : option (list byte))
    (compiled : option database)
    (buffer_size buffer_count max_match_count : Z) : outcome report :=
  let buffer_count := effective_count buffer_count max_match_count in
  if negb (state_ok heap) then
    cleanup HYPERSCANNER_STATE_MEM false None None None
            (mk_report 0 [] [] [])
  else
    let mri := to_uint (buffer_count - 1) in
    let max_results := to_int (to_uint (mri + 1)) in
    if negb (results_ok heap && (0 <=? max_results)) then
      cleanup HYPERSCANNER_COMPILE_MEM true None None None
              (mk_report 0 [] [] [Acquire RState])
    else
      let ring := replicate (Z.to_nat max_results) (fresh_result heap) in
      let st := mk_state 0 0 None mri (-1) ring in
      match alloc_lines heap (Z.to_nat max_results) 0 with
      | Some i =>
          cleanup HYPERSCANNER_COMPILE_MEM true (Some (Z.of_nat i)) None None
                  (mk_report 0 [] []
                     ([Acquire RState; Acquire RResults]
                      ++ map (fun k => Acquire (RLine k)) (seq 0 i)))
      | None =>
          let acquired :=
            [Acquire RState; Acquire RResults]
            ++ map (fun k => Acquire (RLine k)) (seq 0 (Z.to_nat max_results)) in
          match compiled with
          | None =>
              cleanup HYPERSCANNER_DB true (Some max_results)
                      (Some false) (Some false)
                      (mk_report 0 [] [] acquired)
          | Some db =>
              if negb (scratch_ok heap) then
                cleanup HYPERSCANNER_SCRATCH true (Some max_results)
                        (Some false) (Some true)
                        (mk_report 0 [] [] (acquired ++ [Acquire RDatabase]))
              else
                let acquired := acquired ++ [Acquire RDatabase; Acquire RScratch] in
                match hyperscan_gz heap file (mk_session st []) db
                        buffer_size max_match_count with
                | (Undefined f (r, w), ev) =>
                    Undefined f
                      (mk_report r (delivered (sess w)) (scanned w)
                                 (acquired ++ ev))
                | (Done (r, w), ev) =>
                    cleanup r true (Some max_results) (Some true) (Some true)
                            (mk_report r (flush (sess w)) (scanned w)
                                       (acquired ++ ev))
                end
          end
      end.

(** ** [init_hs_db] and [check_patterns] *)

(** [init_hs_db]: the database [hs_compile_multi] leaves in [*db] and
    the status returned. *)
Definition init_hs_db (compiled : option database) : option database * Z :=
  match compiled with
  | Some db => (Some db, 0)
  | None => (None, HYPERSCANNER_COMPILE)
  end.

(** [check_patterns]: the status, and what happens to the database. *)
Definition check_patterns (compiled : option database) : Z * list res_event :=
  let '(db, r) := init_hs_db compiled in
  (if negb (r =? 0) then HYPERSCANNER_DB else 0,
   match db with
   | Some _ => [Acquire RDatabase; Release RDatabase]
   | None => []
   end).

(** ** [main] *)

(** Flag values of [hs.h]. *)
Definition HS_FLAG_DOTALL : Z := 2.
Definition HS_FLAG_MULTILINE : Z := 4.
Definition HS_FLAG_SINGLEMATCH : Z := 8.

(** The environment of the stand-alone tool: the files, what the pattern
    compiler yields for a pattern with given flags and id, and the
    allocator during the k-th session. *)
Record world := mk_world {
  fs : string -> option (list byte);
  hs_compile : string -> Z -> Z -> option database;
  heap_of : nat -> allocator
}.

(** The store [v[i] = x] into the local array [v], whose elements are
    [None] until written: outside the array it is undefined. *)
Definition store (v : string) (arr : list (option Z)) (i x : Z)
  : fault + list (option Z) :=
  if (0 <=? i) && (i <? Z.of_nat (length arr))
  then inr (<[Z.to_nat i := Some x]> arr)
  else inl (OutOfBounds v i).

(** One iteration of the loop of [main]: the session for [argv[i]].  The
    arrays [pattern_flags] and [pattern_ids] have one element each and
    are declared anew, unwritten, in every iteration; the stores go to
    index [i - 2], and [hyperscan], told that there is one pattern,
    reads element 0. *)
Definition main_session (w : world) (pattern : string) (i : Z)
    (input_file : string) : fault + outcome report :=
  let flags := Z.lor (Z.lor HS_FLAG_DOTALL HS_FLAG_MULTILINE) HS_FLAG_SINGLEMATCH in
  match store "pattern_flags" [None] (i - 2) flags with
  | inl f => inl f
  | inr pattern_flags =>
      match store "pattern_ids" [None] (i - 2) (i - 2) with
      | inl f => inl f
      | inr pattern_ids =>
          match mjoin (pattern_flags !! O), mjoin (pattern_ids !! O) with
          | Some fl, Some id =>
              inr (hyperscan (heap_of w (Z.to_nat (i - 2))) (fs w input_file)
                             (hs_compile w pattern fl id) 65535 256 0)
          | None, _ => inl (Uninitialised "pattern_flags")
          | _, None => inl (Uninitialised "pattern_ids")
          end
      end
  end.

(** The loop of [main] over [argv[2..]]; [i] is the loop variable and
    [done] the reports of the sessions run so far. *)
Fixpoint main_loop (w : world) (pattern : string) (files : list string)
    (i : Z) (ret_main : Z) (done : list report) : outcome (Z * list report) :=
  match files with
  | [] => Done (ret_main, done)
  | input_file :: rest =>
      match main_session w pattern i input_file with
      | inl f => Undefined f (ret_main, done)
      | inr (Done rep) =>
          main_loop w pattern rest (i + 1) (ret rep) (done ++ [rep])
      | inr (Undefined f rep) => Undefined f (ret rep, done ++ [rep])
      end
  end.

Definition main (w : world) (argv : list string) : outcome (Z * list report) :=
  match argv with
  | _ :: pattern :: (_ :: _) as files => main_loop w pattern files 2 0 []
  | _ => Done (-1, [])
  end.

(** ** The library without batching

    [src/pyhypergrep/common/shared/c/hyperscanner.c]: the caller's
    callback is invoked for every occurrence, there is no ring, no quota
    and no strip of leading zero bytes, and [init_hs_db] numbers the
    patterns itself. *)

Module Py.

Inductive resource :=
| RState                 (* the hyperscanner_state_t block *)
| RDatabase              (* hs_database_t *)
| RScratch               (* hs_scratch_t *)
| RFile                  (* gzFile *)
| RBuf                   (* the read buffer of hyperscan_gz *)
| RIds                   (* the ids array of init_hs_db *)
| RFlags                 (* the flags array of init_hs_db *)
| RError                 (* hs_compile_error_t *).

Inductive res_event :=
| Acquire (r : resource)
| Release (r : resource).

Inductive fault :=
| BadString                       (* null line pointer or unterminated string *)
| Uninitialised (v : string)      (* a local read before its initialiser ran *)
| OutOfBounds (v : string) (i : nat) (* v[i] read outside the caller's array *).

Inductive outcome (A : Type) :=
| Done (a : A)
| Undefined (f : fault) (a : A).
Arguments Done {A} a.
Arguments Undefined {A} f a.

Definition carried {A : Type} (o : outcome A) : A :=
  match o with Done a => a | Undefined _ a => a end.

Definition returned {A : Type} (o : outcome A) : Prop :=
  match o with Done _ => True | Undefined _ _ => False end.

(** Which allocations succeed, and the unspecified content of fresh
    memory. *)
Record allocator := mk_allocator {
  state_ok : bool;
  ids_ok : bool;
  flags_ok : bool;
  scratch_ok : bool;
  buf_ok : bool;
  fresh_bytes : list byte;
  fresh_word : Z
}.

(** [hs_compile_multi(expressions, flags, ids, elements, ...)]: the
    database, or [None] on failure. *)
Definition compiler : Type :=
  list string -> list Z -> list Z -> Z -> option database.

(** One invocation of [onEvent(lineNumber, matchId, line)]. *)
Record event := mk_event {
  e_lineNumber : Z;
  e_matchId : Z;
  e_line : list byte
}.

(** [hyperscanner_state_t]; the invocations of its [callback] are
    recorded in [events] of the session. *)
Record hyperscanner_state := mk_state {
  lineNumber : Z;
  line : option nat
}.

Record session := mk_session {
  state : hyperscanner_state;
  events : list event
}.

Definition hs_callback (buf : list byte) (id : Z) (se : session)
  : outcome session :=
  match line (state se) ≫= c_string buf with
  | None => Undefined BadString se
  | Some text =>
      Done (mk_session (state se)
              (events se ++ [mk_event (lineNumber (state se)) id text]))
  end.

Fixpoint run_callbacks (buf : list byte) (ids : list Z) (se : session)
  : outcome session :=
  match ids with
  | [] => Done se
  | i :: rest =>
      match hs_callback buf i se with
      | Done se' => run_callbacks buf rest se'
      | Undefined f se' => Undefined f se'
      end
  end.

(** The loop of [init_hs_db] that fills [ids] and [flags]; [None] when
    [expression_flags] is read beyond its end, with the index. *)
Fixpoint fill (expression_flags : list Z) (n id : nat) (ids flags : list Z)
  : list Z * list Z + nat :=
  match n with
  | O => inl (ids, flags)
  | S n' =>
      match expression_flags !! id with
      | None => inr id
      | Some fl =>
          fill expression_flags n' (S id)
               (<[id := Z.of_nat id]> ids) (<[id := fl]> flags)
      end
  end.

(** [init_hs_db]: the database left in [*db], the status, and the
    allocations made and undone. *)
Definition init_hs_db (heap : allocator) (compile : compiler)
    (expressions : list string) (expression_flags : list Z) (elements : Z)
  : outcome (option database * Z * list res_event) :=
  let n := Z.to_nat elements in
  let ids := ids_ok heap && (0 <=? elements) in
  let flags := flags_ok heap && (0 <=? elements) in
  let acquired :=
    (if ids then [Acquire RIds] else []) ++ (if flags then [Acquire RFlags] else []) in
  let released :=
    (if flags then [Release RFlags] else []) ++ (if ids then [Release RIds] else []) in
  if negb (ids && flags) then
    Done (None, HYPERSCANNER_COMPILE_MEM, acquired ++ released)
  else
    match fill expression_flags n O
               (replicate n (fresh_word heap)) (replicate n (fresh_word heap)) with
    | inr i =>
        Undefined (OutOfBounds "expression_flags" i)
                  (None, 0, acquired)
    | inl (ids_filled, flags_filled) =>
        match compile expressions flags_filled ids_filled elements with
        | Some db => Done (Some db, 0, acquired ++ released)
        | None =>
            Done (None, HYPERSCANNER_COMPILE,
                  acquired ++ [Acquire RError; Release RError] ++ released)
        end
    end.

Record scanner := mk_scanner {
  buf : list byte;
  sess : session;
  scanned : list (list byte)
}.

Definition set_line (off : option nat) (se : session) : session :=
  mk_session (mk_state (lineNumber (state se)) off) (events se).

Definition next_line (se : session) : session :=
  mk_session (mk_state (to_ull (lineNumber (state se) + 1)) (line (state se)))
             (events se).

(** The [while (1)] loop of [hyperscan_gz]. *)
Fixpoint scan_loop (db : database) (lines : list (list byte)) (ret : Z)
    (w : scanner) : outcome (Z * scanner) :=
  match lines with
  | [] => Done (ret, w)
  | l :: rest =>
      let b := store_line (buf w) l in
      let se := set_line (Some O) (sess w) in
      match c_string b O with
      | None => Undefined BadString (ret, mk_scanner b se (scanned w))
      | Some span =>
          let '(ids, ok) := hs_scan db span in
          match run_callbacks b ids se with
          | Undefined f se' =>
              Undefined f (ret, mk_scanner b se' (scanned w ++ [span]))
          | Done se' =>
              if negb ok then
                Done (HYPERSCANNER_SCAN, mk_scanner b se' (scanned w ++ [span]))
              else
                scan_loop db rest ret
                  (mk_scanner b (next_line se') (scanned w ++ [span]))
          end
      end
  end.

Definition lines_read (heap : allocator) (file : option (list byte))
    (bufSize : Z) : list (list byte) :=
  match file with
  | Some content => if buf_ok heap then gzlines bufSize content else []
  | None => []
  end.

Definition hyperscan_gz (heap : allocator) (file : option (list byte))
    (se : session) (db : database) (bufSize : Z)
  : outcome (Z * scanner) * list res_event :=
  let inputFile := match file with Some _ => true | None => false end in
  let ret := if inputFile then 0 else HYPERSCANNER_GZ_OPEN in
  let opened := if inputFile then [Acquire RFile] else [] in
  let closed := if inputFile then [Release RFile] else [] in
  let alloc := if buf_ok heap then [Acquire RBuf] else [] in
  let freed := if buf_ok heap then [Release RBuf] else [] in
  let w :=
    mk_scanner (take (Z.to_nat bufSize)
                     (fresh_bytes heap ++ replicate (Z.to_nat bufSize) x00))
               se [] in
  match scan_loop db (lines_read heap file bufSize) ret w with
  | Done r => (Done r, opened ++ alloc ++ closed ++ freed)
  | Undefined f r => (Undefined f r, opened ++ alloc)
  end.

(** What a call of [hyperscan] did. *)
Record report := mk_report {
  ret : Z;
  reported : list event;
  spans : list (list byte);
  resources : list res_event
}.

(** The [cleanup:] block: scratch, database, state. *)
Definition cleanup (ret : Z) (scratch db : option bool) (state_ptr : bool)
    (rep : report) : outcome report :=
  match scratch with
  | None =>
      Undefined (Uninitialised "scratch")
        (mk_report ret (reported rep) (spans rep) (resources rep))
  | Some s =>
      match db with
      | None =>
          Undefined (Uninitialised "db")
            (mk_report ret (reported rep) (spans rep)
               (resources rep ++ (if s then [Release RScratch] else [])))
      | Some d =>
          Done (mk_report ret (reported rep) (spans rep)
                  (resources rep
                   ++ (if s then [Release RScratch] else [])
                   ++ (if d then [Release RDatabase] else [])
                   ++ (if state_ptr then [Release RState] else [])))
      end
  end.

(** [hyperscan]; its [unsigned int elements] is passed for the [int]
    parameter of [init_hs_db]. *)
Definition hyperscan (heap : allocator) (compile : compiler)
    (file : option (list byte)) (patterns : list string)
    (pattern_flags : list Z) (elements bufSize : Z) : outcome report :=
  if negb (state_ok heap) then
    cleanup HYPERSCANNER_STATE_MEM None None false (mk_report 0 [] [] [])
  else
    match init_hs_db heap compile patterns pattern_flags (to_int elements) with
    | Undefined f (_, _, ev) =>
        Undefined f (mk_report 0 [] [] (Acquire RState :: ev))
    | Done (Some db, 0, ev) =>
        if negb (scratch_ok heap) then
          cleanup HYPERSCANNER_SCRATCH (Some false) (Some true) true
                  (mk_report 0 [] [] (Acquire RState :: ev ++ [Acquire RDatabase]))
        else
          let acquired :=
            Acquire RState :: ev ++ [Acquire RDatabase; Acquire RScratch] in
          match hyperscan_gz heap file (mk_session (mk_state 0 None) []) db bufSize with
          | (Undefined f (r, w), gz) =>
              Undefined f
                (mk_report r (events (sess w)) (scanned w) (acquired ++ gz))
          | (Done (r, w), gz) =>
              cleanup r (Some true) (Some true) true
                      (mk_report r (events (sess w)) (scanned w) (acquired ++ gz))
          end
    | Done (_, _, ev) =>
        cleanup HYPERSCANNER_DB (Some false) (Some false) true
                (mk_report 0 [] [] (Acquire RState :: ev))
    end.

(** [main]: the file is [argv[1]], the patterns are [argv[2..]], each
    with the flags DOTALL, MULTILINE and SINGLEMATCH. *)
Definition main (heap : allocator) (compile : compiler)
    (fs : string -> option (list byte)) (argv : list string)
  : Z + outcome report :=
  match argv with
  | _ :: inputFile :: (_ :: _) as patterns =>
      let elements := Z.of_nat (length patterns) in
      let pattern_flags :=
        replicate (length patterns)
          (Z.lor (Z.lor HS_FLAG_DOTALL HS_FLAG_MULTILINE) HS_FLAG_SINGLEMATCH) in
      inr (hyperscan heap compile (fs inputFile) patterns pattern_flags
                     elements 65535)
  | _ => inl (-1)
  end.

End Py.

(** ** A literal matcher and an allocator for concrete runs

    [literal_db] stands in for a compiled database of literal patterns:
    it reports, for each start offset from left to right, the ids of the
    patterns occurring there. *)

Fixpoint is_prefix (p s : list byte) : bool :=
  match p, s with
  | [], _ => true
  | a :: p', b :: s' => Byte.eqb a b && is_prefix p' s'
  | _ :: _, [] => false
  end.

Fixpoint literal_scan (pats : list (Z * list byte)) (s : list byte) : list Z :=
  match s with
  | [] => []
  | _ :: r =>
      map fst (List.filter (fun p => is_prefix (snd p) s) pats)
      ++ literal_scan pats r
  end.

Definition literal_db (pats : list (Z * list byte)) : database :=
  mk_database (fun s => (literal_scan pats s, true)).

Definition bytes (s : string) : list byte := list_byte_of_string s.

(** Patterns ["foo"] and ["bar"] with ids 0 and 1. *)
Definition foo_bar : database :=
  literal_db [(0, bytes "foo"); (1, bytes "bar")].

(** A database whose scan of any span holding ["bar"] fails after the
    callbacks for the occurrences of ["foo"] in it. *)
Definition foo_fails_on_bar : database :=
  mk_database (fun s =>
    (literal_scan [(0, bytes "foo")] s,
     match literal_scan [(1, bytes "bar")] s with [] => true | _ => false end)).

(** An allocator under which every allocation succeeds; fresh memory
    holds the bytes [junk]. *)
Definition heap_ok (junk : list byte) : allocator :=
  mk_allocator true true (fun _ => true) true true junk (mk_result 0 0 []).

(** The file of the specification's scenarios: three lines, ["foo"],
    ["bar"] and ["foobar"]. *)
Definition three_lines : list byte :=
  bytes "foo" ++ [x0a] ++ bytes "bar" ++ [x0a] ++ bytes "foobar" ++ [x0a].

(** ** Notions used in the statements *)

(** The filled prefix of the ring: the records not yet handed over. *)
Definition pending (st : hyperscanner_state) : list hyperscanner_result :=
  take (Z.to_nat (result_index st + 1)) (results st).

(** The records of a sequence of batches, in delivery order. *)
Definition records (bs : list batch) : list hyperscanner_result :=
  concat (map batch_results bs).

(** Everything recorded so far: delivered, then pending. *)
Definition stream (se : session) : list hyperscanner_result :=
  records (delivered se) ++ pending (state se).

Definition capacity (st : hyperscanner_state) : Z :=
  Z.of_nat (length (results st)).

(** The state between two callbacks: a ring of at least one slot, its
    last index in [max_result_index], the fill index below it, and the
    match counter in the range of its type. *)
Definition ring_ok (st : hyperscanner_state) : Prop :=
  1 <= capacity st <= INT_MAX
  /\ max_result_index st = capacity st - 1
  /\ -1 <= result_index st < max_result_index st
  /\ 0 <= match_count st < 2 ^ 64.

(** A batch of exactly [cap] records. *)
Definition full (cap : Z) (b : batch) : Prop :=
  result_count b = cap /\ Z.of_nat (length (batch_results b)) = cap.

(** The occurrences the Matcher reports for [span], as records of line
    [n], in callback order. *)
Definition occurrences_of (db : database) (n : Z) (span : list byte)
  : list hyperscanner_result :=
  map (fun i => mk_result i n span) (fst (hs_scan db span)).

(** Number of occurrences the Matcher reports over [spans]. *)
Fixpoint tally (db : database) (spans : list (list byte)) : Z :=
  match spans with
  | [] => 0
  | s :: r => Z.of_nat (length (fst (hs_scan db s))) + tally db r
  end.

(** The occurrences reported over [spans], the k-th span being line
    [n + k] of the file. *)
Fixpoint occurrences (db : database) (n : Z) (spans : list (list byte))
  : list hyperscanner_result :=
  match spans with
  | [] => []
  | s :: r => occurrences_of db n s ++ occurrences db (n + 1) r
  end.

(** The same with the line counter wrapping as [unsigned long long]. *)
Fixpoint numbered (db : database) (n : Z) (spans : list (list byte))
  : list hyperscanner_result :=
  match spans with
  | [] => []
  | s :: r => occurrences_of db n s ++ numbered db (to_ull (n + 1)) r
  end.

(** The loop goes on after scanning [s] with [mc] matches counted before:
    the scan succeeded and the quota is not reached. *)
Definition goes_on (db : database) (max_match_count mc : Z) (s : list byte)
  : bool :=
  snd (hs_scan db s)
  && negb ((max_match_count >? 0)
           && (to_ull (mc + Z.of_nat (length (fst (hs_scan db s))))
               >=? max_match_count)).

(** Every scan of [spans] but the last let the loop go on. *)
Fixpoint steady (db : database) (max_match_count mc : Z)
    (spans : list (list byte)) : Prop :=
  match spans with
  | [] => True
  | s :: r =>
      match r with
      | [] => True
      | _ :: _ =>
          goes_on db max_match_count mc s = true
          /\ steady db max_match_count
               (to_ull (mc + Z.of_nat (length (fst (hs_scan db s))))) r
      end
  end.

(** The span the loop hands to the Matcher once [gzgets] has filled
    [b]. *)
Definition view (buffer_size : Z) (b : list byte) : option (list byte) :=
  c_string b (line_start b buffer_size).

(** The spans for the successive reads [lines], the buffer holding [b]
    before the first, for as long as they are defined. *)
Fixpoint views (buffer_size : Z) (b : list byte) (lines : list (list byte))
  : list (list byte) :=
  match lines with
  | [] => []
  | l :: rest =>
      match view buffer_size (store_line b l) with
      | None => []
      | Some span => span :: views buffer_size (store_line b l) rest
      end
  end.

(** The value carried by an outcome, defined or not. *)
Definition carried {A : Type} (o : outcome A) : A :=
  match o with Done a => a | Undefined _ a => a end.

(** The call returned (with whatever status). *)
Definition returned {A : Type} (o : outcome A) : Prop :=
  match o with Done _ => True | Undefined _ _ => False end.

(** What one run of the loop over [lines], started in [w] with [ret],
    establishes; [new] are the spans it scanned. *)
Definition loop_post (db : database) (buffer_size max_match_count : Z)
    (lines : list (list byte)) (ret : Z) (w : scanner)
    (o : outcome (Z * scanner)) (new : list (list byte)) : Prop :=
  let st := state (sess w) in
  let w' := snd (carried o) in
  let st' := state (sess w') in
  scanned w' = scanned w ++ new
  /\ new `prefix_of` views buffer_size (buf w) lines
  /\ ring_ok st'
  /\ capacity st' = capacity st
  /\ (exists more, delivered (sess w') = delivered (sess w) ++ more
                   /\ Forall (full (capacity st)) more)
  /\ stream (sess w') = stream (sess w) ++ numbered db (line_number st) new
  /\ match_count st' = to_ull (match_count st + tally db new)
  /\ steady db max_match_count (match_count st) new
  /\ (returned o
      \/ (new = views buffer_size (buf w) lines
          /\ (length new < length lines)%nat
          /\ Forall (fun s => snd (hs_scan db s) = true) new))
  /\ (forall r w1, o = Done (r, w1) ->
        (r = HYPERSCANNER_SCAN
         /\ exists p s, new = p ++ [s] /\ snd (hs_scan db s) = false)
        \/ (r = ret
            /\ Forall (fun s => snd (hs_scan db s) = true) new
            /\ ((new = views buffer_size (buf w) lines
                 /\ length new = length lines)
                \/ 0 < max_match_count <= match_count st'))).

(** The arguments a caller may pass for a session of at least one slot. *)
Definition valid_config (buffer_count max_match_count : Z) : Prop :=
  1 <= buffer_count <= INT_MAX /\ 0 <= max_match_count <= ULLONG_MAX.

(** Construction succeeds: every allocation before the scan does. *)
Definition constructs (heap : allocator) (cap : Z) : Prop :=
  state_ok heap = true
  /\ results_ok heap = true
  /\ alloc_lines heap (Z.to_nat cap) 0 = None
  /\ scratch_ok heap = true.

(** The batches of a session of capacity [cap]: full batches, then at
    most one smaller, non-empty batch. *)
Definition well_batched (cap : Z) (bs : list batch) : Prop :=
  exists fulls tail,
    bs = fulls ++ tail
    /\ Forall (full cap) fulls
    /\ (tail = []
        \/ exists bt, tail = [bt]
                      /\ 1 <= result_count bt < cap
                      /\ Z.of_nat (length (batch_results bt)) = result_count bt).

(** What a constructed session establishes. *)
Definition session_post (db : database)
    (buffer_size buffer_count max_match_count : Z)
    (buf0 : list byte) (lines : list (list byte)) (o : outcome report) : Prop :=
  let rep := carried o in
  spans rep `prefix_of` views buffer_size buf0 lines
  /\ steady db max_match_count 0 (spans rep)
  /\ well_batched (effective_count buffer_count max_match_count) (batches rep)
  /\ records (batches rep) `prefix_of` numbered db 0 (spans rep)
  /\ (returned o
      \/ (spans rep = views buffer_size buf0 lines
          /\ (length (spans rep) < length lines)%nat
          /\ Forall (fun s => snd (hs_scan db s) = true) (spans rep)))
  /\ (forall rep', o = Done rep' ->
        records (batches rep) = numbered db 0 (spans rep)
        /\ ((ret rep = HYPERSCANNER_SCAN
             /\ exists p s, spans rep = p ++ [s] /\ snd (hs_scan db s) = false)
            \/ (ret rep <> HYPERSCANNER_SCAN
                /\ Forall (fun s => snd (hs_scan db s) = true) (spans rep)
                /\ ((spans rep = views buffer_size buf0 lines
                     /\ length (spans rep) = length lines)
                    \/ 0 < max_match_count <= to_ull (tally db (spans rep)))))).

(** A line as text: its leading zero bytes dropped, then the bytes up
    to the next zero byte. *)
Fixpoint skip_nuls (l : list byte) : list byte :=
  match l with
  | [] => []
  | b :: r => if is_nul b then skip_nuls r else l
  end.

Fixpoint before_nul (l : list byte) : list byte :=
  match l with
  | [] => []
  | b :: r => if is_nul b then [] else b :: before_nul r
  end.

Definition text_of (l : list byte) : list byte := before_nul (skip_nuls l).

(** Number of leading zero bytes. *)
Fixpoint leading_nuls (l : list byte) : nat :=
  match l with
  | [] => O
  | b :: r => if is_nul b then S (leading_nuls r) else O
  end.

(** A scanner without the content of the read buffer and the pointer
    into it: what the caller and the rest of the session depend on. *)
Definition forget (w : scanner) : scanner :=
  mk_scanner [] (set_line None (sess w)) (scanned w).

Definition forget_outcome (o : outcome (Z * scanner)) : outcome (Z * scanner) :=
  match o with
  | Done (r, w) => Done (r, forget w)
  | Undefined f (r, w) => Undefined f (r, forget w)
  end.

(** A world with one readable file, ["good"], in which every pattern
    compiles to [foo_bar] and every allocation succeeds. *)
Definition one_good_file : world :=
  mk_world
    (fun name => if String.eqb name "good" then Some three_lines else None)
    (fun _ _ _ => Some foo_bar)
    (fun _ => heap_ok []).

(** A file that ends in zero bytes after its only line. *)
Definition padded_file : list byte :=
  bytes "hello foo" ++ [x0a; x00; x00; x00].

(** Two scanners that differ in what the read buffer holds. *)
Definition scanner_a : scanner :=
  mk_scanner (store_line (replicate 100 x00) (bytes "hello foo" ++ [x0a]))
    (mk_session (mk_state 0 0 None 1 (-1) (replicate 2 (mk_result 0 0 []))) [])
    [].

Definition scanner_b : scanner :=
  mk_scanner (replicate 100 x01)
    (mk_session (mk_state 0 0 None 1 (-1) (replicate 2 (mk_result 0 0 []))) [])
    [].

(** The command line [hyperscanner foo missing good]. *)
Definition missing_then_good : list string :=
  ["hyperscanner"%string; "foo"%string; "missing"%string; "good"%string].

(** The session [hyperscan] hands to [hyperscan_gz]: counters at zero and
    an empty ring of [cap] slots. *)
Definition fresh_session (heap : allocator) (cap : Z) : session :=
  mk_session
    (mk_state 0 0 None (cap - 1) (-1)
       (replicate (Z.to_nat cap) (fresh_result heap)))
    [].

(** What the construction of a session of [cap] slots acquires. *)
Definition acquired_by_construction (cap : Z) : list res_event :=
  ([Acquire RState; Acquire RResults]
   ++ map (fun k => Acquire (RLine k)) (seq 0 (Z.to_nat cap)))
  ++ [Acquire RDatabase; Acquire RScratch].

(** The allocations of [hyperscan] before the database is compiled
    succeed. *)
Definition allocates (heap : allocator) (cap : Z) : Prop :=
  state_ok heap = true
  /\ results_ok heap = true
  /\ alloc_lines heap (Z.to_nat cap) 0 = None.

(** The texts the loop scans out of [texts]: all of them up to and
    including the first on which the Matcher fails. *)
Fixpoint scanned_texts (db : database) (texts : list (list byte))
  : list (list byte) :=
  match texts with
  | [] => []
  | t :: rest =>
      t :: (if snd (hs_scan db t) then scanned_texts db rest else [])
  end.

(** A record as the arguments of one call of the callback of the library
    without batching. *)
Definition to_event (r : hyperscanner_result) : Py.event :=
  Py.mk_event (r_line_number r) (r_id r) (r_line r).

(** A compiler of literal patterns, each reported under the id given for
    it; and an allocator of the library without batching under which
    every allocation succeeds. *)
Definition literal_compiler : Py.compiler :=
  fun expressions _ ids _ =>
    Some (literal_db (combine ids (map bytes expressions))).

Definition py_heap_ok : Py.allocator :=
  Py.mk_allocator true true true true true [] 0.

(** Equality of the resource events of the library without batching is
    decidable. *)
#[global] Instance py_resource_eq_dec : EqDecision Py.resource.
Proof. solve_decision. Defined.

#[global] Instance py_res_event_eq_dec : EqDecision Py.res_event.
Proof. solve_decision. Defined.

(** * Proofs *)

Section Integers.

Lemma to_int_small x : - 2 ^ 31 <= x <= INT_MAX -> to_int x = x.
Proof.
  unfold to_int, INT_MAX. intros H.
  rewrite Z.mod_small; lia.
Qed.

Lemma to_uint_small x : 0 <= x < 2 ^ 32 -> to_uint x = x.
Proof. unfold to_uint. intros H. apply Z.mod_small; lia. Qed.

Lemma to_ull_small x : 0 <= x < 2 ^ 64 -> to_ull x = x.
Proof. unfold to_ull. intros H. apply Z.mod_small; lia. Qed.

Lemma to_ull_range x : 0 <= to_ull x < 2 ^ 64.
Proof. unfold to_ull. apply Z.mod_pos_bound. lia. Qed.

End Integers.

Section Batcher.

Variable b : list byte.

Lemma take_insert_snoc {A} (l : list A) (n : nat) (x : A) :
  (n < length l)%nat -> take (S n) (<[n := x]> l) = take n l ++ [x].
Proof.
  intros Hn.
  rewrite (take_S_r _ n x) by (apply list_lookup_insert_eq; exact Hn).
  rewrite take_insert_ge by lia. reflexivity.
Qed.

Lemma records_app xs ys : records (xs ++ ys) = records xs ++ records ys.
Proof. unfold records. rewrite map_app, concat_app. reflexivity. Qed.

(** One callback on a well-formed ring: it is defined, keeps the ring
    well formed, appends its record to the stream, and either delivers
    nothing or one full batch. *)
Lemma hs_callback_step (i : Z) (se : session) (off : nat) (text : list byte) :
  ring_ok (state se) ->
  line (state se) = Some off ->
  c_string b off = Some text ->
  exists se',
    hs_callback b i se = Done se'
    /\ ring_ok (state se')
    /\ stream se' = stream se ++ [mk_result i (line_number (state se)) text]
    /\ match_count (state se') = to_ull (match_count (state se) + 1)
    /\ line_number (state se') = line_number (state se)
    /\ line (state se') = line (state se)
    /\ capacity (state se') = capacity (state se)
    /\ (delivered se' = delivered se
        \/ exists bt, delivered se' = delivered se ++ [bt]
                      /\ full (capacity (state se)) bt).
Proof.
  destruct se as [st dl]. simpl. intros (Hcap & Hmri & Hri & Hmc) Hline Hstr.
  pose proof (to_ull_range (match_count st + 1)) as Hmc'.
  unfold capacity in *.
  assert (Hto : to_int (result_index st + 1) = result_index st + 1)
    by (apply to_int_small; unfold INT_MAX in *; lia).
  assert (Hin : (0 <=? result_index st + 1)
                && (result_index st + 1 <? Z.of_nat (length (results st))) = true)
    by (apply andb_true_iff; split; lia).
  assert (Hlt : (Z.to_nat (result_index st + 1) < length (results st))%nat)
    by lia.
  assert (Hpend :
    take (S (Z.to_nat (result_index st + 1)))
         (<[Z.to_nat (result_index st + 1) := mk_result i (line_number st) text]> (results st))
    = pending st ++ [mk_result i (line_number st) text])
    by (apply take_insert_snoc; exact Hlt).
  unfold hs_callback. simpl. rewrite Hto, Hin, Hline. simpl. rewrite Hstr.
  rewrite to_uint_small by (unfold INT_MAX in *; lia).
  destruct (Z.eqb_spec (result_index st + 1) (max_result_index st)) as [He | Hne].
  - eexists. split; [reflexivity |]. simpl.
    unfold ring_ok, capacity, stream, pending, on_event, full. simpl.
    rewrite length_insert.
    replace (Z.to_nat (result_index st + 1 + 1))
      with (S (Z.to_nat (result_index st + 1))) by lia.
    rewrite Hpend.
    repeat split; try lia.
    + rewrite records_app. unfold records at 2. simpl.
      rewrite app_nil_r, app_nil_r, app_assoc. reflexivity.
    + right. eexists. split; [reflexivity |]. simpl. split; [lia |].
      rewrite length_app. unfold pending. rewrite length_take. simpl. lia.
  - eexists. split; [reflexivity |]. simpl.
    unfold ring_ok, capacity, stream, pending. simpl.
    rewrite length_insert.
    replace (Z.to_nat (result_index st + 1 + 1))
      with (S (Z.to_nat (result_index st + 1))) by lia.
    rewrite Hpend.
    repeat split; try lia.
    + rewrite app_assoc. reflexivity.
    + left. reflexivity.
Qed.

Lemma run_callbacks_spec (ids : list Z) :
  forall (se : session) (off : nat) (text : list byte),
  ring_ok (state se) ->
  line (state se) = Some off ->
  c_string b off = Some text ->
  exists se',
    run_callbacks b ids se = Done se'
    /\ ring_ok (state se')
    /\ stream se' = stream se
                    ++ map (fun i => mk_result i (line_number (state se)) text) ids
    /\ match_count (state se')
       = to_ull (match_count (state se) + Z.of_nat (length ids))
    /\ line_number (state se') = line_number (state se)
    /\ capacity (state se') = capacity (state se)
    /\ exists more, delivered se' = delivered se ++ more
                    /\ Forall (full (capacity (state se))) more.
Proof.
  induction ids as [| i ids IH]; intros se off text Hring Hline Hstr.
  - exists se. simpl. rewrite app_nil_r.
    split; [reflexivity |]. split; [exact Hring |]. split; [reflexivity |].
    split.
    { destruct Hring as (_ & _ & _ & Hmc).
      rewrite Z.add_0_r. symmetry. apply to_ull_small. exact Hmc. }
    split; [reflexivity |]. split; [reflexivity |].
    exists []. rewrite app_nil_r. split; [reflexivity | constructor].
  - destruct (hs_callback_step i se off text Hring Hline Hstr)
      as (se1 & Hcb & Hring1 & Hstream1 & Hmc1 & Hln1 & Hline1 & Hcap1 & Hdel1).
    rewrite Hline in Hline1.
    destruct (IH se1 off text Hring1 Hline1 Hstr)
      as (se2 & Hrun & Hring2 & Hstream2 & Hmc2 & Hln2 & Hcap2 & more2 & Hdel2 & Hfull2).
    exists se2. simpl. rewrite Hcb.
    split; [exact Hrun |]. split; [exact Hring2 |].
    split; [rewrite Hstream2, Hstream1, Hln1, <- app_assoc; reflexivity |].
    split.
    { rewrite Hmc2, Hmc1. unfold to_ull.
      rewrite Zplus_mod_idemp_l. f_equal. lia. }
    split; [congruence |]. split; [congruence |].
    rewrite Hcap1 in Hfull2.
    destruct Hdel1 as [Hd | (bt & Hd & Hbt)].
    + exists more2. rewrite Hdel2, Hd. split; [reflexivity | exact Hfull2].
    + exists (bt :: more2). rewrite Hdel2, Hd, <- app_assoc.
      split; [reflexivity | constructor; assumption].
Qed.

End Batcher.

Section Loop.

Variable db : database.
Variables buffer_size max_match_count : Z.

Lemma to_ull_add_l a c : to_ull (to_ull a + c) = to_ull (a + c).
Proof. unfold to_ull. rewrite Zplus_mod_idemp_l. reflexivity. Qed.

Lemma ring_ok_set_line o se : ring_ok (state se) -> ring_ok (state (set_line o se)).
Proof. intros H. exact H. Qed.

Lemma ring_ok_next_line se : ring_ok (state se) -> ring_ok (state (next_line se)).
Proof. intros H. exact H. Qed.

Lemma scan_loop_spec (lines : list (list byte)) :
  forall (ret : Z) (w : scanner),
  ring_ok (state (sess w)) ->
  exists new,
    loop_post db buffer_size max_match_count lines ret w
      (scan_loop db buffer_size max_match_count lines ret w) new.
Proof.
  induction lines as [| l rest IH]; intros ret w Hring.
  - exists []. unfold loop_post. simpl.
    rewrite !app_nil_r, Z.add_0_r.
    split; [reflexivity |]. split; [reflexivity |]. split; [exact Hring |].
    split; [reflexivity |].
    split; [exists []; rewrite app_nil_r; split; [reflexivity | constructor] |].
    split; [reflexivity |].
    split; [symmetry; apply to_ull_small; apply Hring |].
    split; [exact I |]. split; [left; exact I |].
    intros r w1 Hd. injection Hd as <- <-. right.
    split; [reflexivity |]. split; [constructor |]. left. split; reflexivity.
  - simpl scan_loop. unfold loop_post. simpl views. unfold view.
    set (b := store_line (buf w) l).
    set (off := line_start b buffer_size).
    destruct (c_string b off) as [span |] eqn:Hstr.
    2:{ exists []. simpl. rewrite !app_nil_r, Z.add_0_r.
        split; [reflexivity |]. split; [reflexivity |]. split; [exact Hring |].
        split; [reflexivity |].
        split; [exists []; rewrite app_nil_r; split; [reflexivity | constructor] |].
        split; [reflexivity |].
        split; [symmetry; apply to_ull_small; apply Hring |].
        split; [exact I |].
        split; [right; split; [reflexivity | split; [lia | constructor]] |].
        intros r w1 Hd. discriminate Hd. }
    destruct (hs_scan db span) as [ids ok] eqn:Hscan.
    destruct (run_callbacks_spec b ids (set_line (Some off) (sess w)) off span
                (ring_ok_set_line _ _ Hring) eq_refl Hstr)
      as (se1 & Hrun & Hring1 & Hstream1 & Hmc1 & Hln1 & Hcap1 & more1 & Hdel1 & Hfull1).
    rewrite Hrun.
    change (stream (set_line (Some off) (sess w))) with (stream (sess w)) in Hstream1.
    change (line_number (state (set_line (Some off) (sess w))))
      with (line_number (state (sess w))) in *.
    change (match_count (state (set_line (Some off) (sess w))))
      with (match_count (state (sess w))) in *.
    change (capacity (state (set_line (Some off) (sess w))))
      with (capacity (state (sess w))) in *.
    change (delivered (set_line (Some off) (sess w)))
      with (delivered (sess w)) in *.
    assert (Hocc : occurrences_of db (line_number (state (sess w))) span
                   = map (fun i => mk_result i (line_number (state (sess w))) span) ids)
      by (unfold occurrences_of; rewrite Hscan; reflexivity).
    assert (Hlen : Z.of_nat (length (fst (hs_scan db span))) = Z.of_nat (length ids))
      by (rewrite Hscan; reflexivity).
    destruct ok; simpl negb; cbv iota.
    2:{ (* the scan failed *)
        exists [span]. simpl.
        rewrite Hocc, app_nil_r, Hlen, Z.add_0_r.
        split; [reflexivity |].
        split; [apply prefix_cons, prefix_nil |].
        split; [exact Hring1 |]. split; [exact Hcap1 |].
        split; [exists more1; split; assumption |].
        split; [exact Hstream1 |]. split; [exact Hmc1 |].
        split; [exact I |]. split; [left; exact I |].
        intros r w1 Hd. injection Hd as <- <-. left.
        split; [reflexivity |]. exists [], span.
        split; [reflexivity |]. rewrite Hscan. reflexivity. }
    destruct ((max_match_count >? 0)
              && (match_count (state se1) >=? max_match_count)) eqn:Hquota.
    + (* the quota is reached *)
      exists [span]. simpl.
      rewrite Hocc, app_nil_r, Hlen, Z.add_0_r.
      split; [reflexivity |].
      split; [apply prefix_cons, prefix_nil |].
      split; [exact Hring1 |]. split; [exact Hcap1 |].
      split; [exists more1; split; assumption |].
      split; [exact Hstream1 |]. split; [exact Hmc1 |].
      split; [exact I |]. split; [left; exact I |].
      intros r w1 Hd. injection Hd as <- <-. right.
      split; [reflexivity |].
      split; [constructor; [rewrite Hscan; reflexivity | constructor] |].
      right. simpl. apply andb_true_iff in Hquota. lia.
    + (* the loop goes on *)
      set (w2 := mk_scanner b (next_line se1) (scanned w ++ [span])).
      destruct (IH ret w2 (ring_ok_next_line _ Hring1))
        as (new & Hsc & Hpre & Hring2 & Hcap2 & (more2 & Hdel2 & Hfull2)
            & Hstream2 & Hmc2 & Hsteady2 & Htotal2 & Hdone2).
      exists (span :: new).
      set (o := scan_loop db buffer_size max_match_count rest ret w2) in *.
      simpl in Hsc, Hpre, Hcap2, Hdel2, Hfull2, Hstream2, Hmc2, Hsteady2.
      change (stream (next_line se1)) with (stream se1) in Hstream2.
      split; [rewrite Hsc, <- app_assoc; reflexivity |].
      split; [apply prefix_cons; exact Hpre |].
      split; [exact Hring2 |].
      split; [rewrite Hcap2; exact Hcap1 |].
      split.
      { exists (more1 ++ more2). rewrite Hdel2, Hdel1, <- app_assoc.
        split; [reflexivity |]. apply Forall_app. split; [exact Hfull1 |].
        rewrite <- Hcap1. exact Hfull2. }
      split.
      { rewrite Hstream2, Hstream1, Hln1. simpl numbered.
        rewrite Hocc, <- app_assoc. reflexivity. }
      split.
      { rewrite Hmc2, Hmc1, to_ull_add_l. simpl tally. rewrite Hlen.
        f_equal. lia. }
      split.
      { simpl. destruct new as [| s' new']; [exact I |].
        split.
        - unfold goes_on. rewrite Hlen, Hscan. simpl.
          rewrite <- Hmc1, Hquota. reflexivity.
        - rewrite Hlen, <- Hmc1. exact Hsteady2. }
      split.
      { destruct Htotal2 as [Hret | (Hv & Hl & Hall)]; [left; exact Hret | right].
        simpl in Hv, Hl. split; [rewrite Hv; reflexivity |].
        split; [simpl; lia |].
        constructor; [rewrite Hscan; reflexivity | exact Hall]. }
      intros r w1 Hd. destruct (Hdone2 r w1 Hd) as [(Hr & p & s & Hnew & Hfail)
                                                  | (Hr & Hall & Hend)].
      * left. split; [exact Hr |]. exists (span :: p), s.
        split; [rewrite Hnew; reflexivity | exact Hfail].
      * right. split; [exact Hr |].
        split; [constructor; [rewrite Hscan; reflexivity | exact Hall] |].
        destruct Hend as [(Hv & Hl) | Hq].
        -- left. split; [rewrite Hv; reflexivity | simpl; rewrite Hl; reflexivity].
        -- right. exact Hq.
Qed.

End Loop.

Section Session.

Lemma effective_count_range bc mx :
  valid_config bc mx ->
  1 <= effective_count bc mx <= bc
  /\ (0 < mx < bc -> effective_count bc mx = mx)
  /\ (~ 0 < mx < bc -> effective_count bc mx = bc).
Proof.
  unfold valid_config, effective_count, INT_MAX, ULLONG_MAX.
  intros [Hbc Hmx].
  rewrite (to_ull_small bc) by lia.
  destruct (Z.gtb_spec mx 0); destruct (Z.ltb_spec mx bc); simpl;
    try (rewrite to_int_small by (unfold INT_MAX; lia)); lia.
Qed.

Lemma cleanup_keeps r sp ra sc d rep :
  batches (carried (cleanup r sp ra sc d rep)) = batches rep
  /\ spans (carried (cleanup r sp ra sc d rep)) = spans rep.
Proof. destruct ra, sc, d; split; reflexivity. Qed.

(** A session that is not constructed, or whose patterns do not compile,
    scans nothing and delivers nothing. *)
Lemma hyperscan_quiet heap file compiled bs bc mx :
  let rep := carried (hyperscan heap file compiled bs bc mx) in
  (batches rep = [] /\ spans rep = [])
  \/ (constructs heap (to_int (to_uint (to_uint (effective_count bc mx - 1) + 1)))
      /\ exists db, compiled = Some db).
Proof.
  unfold hyperscan, constructs.
  destruct (state_ok heap); simpl negb; cbv iota;
    [| left; apply cleanup_keeps].
  destruct (results_ok heap); simpl andb; [| left; apply cleanup_keeps].
  destruct (0 <=? _); simpl negb; cbv iota; [| left; apply cleanup_keeps].
  destruct (alloc_lines heap _ 0); [left; apply cleanup_keeps |].
  destruct compiled as [db |]; [| left; apply cleanup_keeps].
  destruct (scratch_ok heap); simpl negb; cbv iota;
    [| left; apply cleanup_keeps].
  right. split; [tauto | exists db; reflexivity].
Qed.

Lemma flush_spec (se : session) :
  ring_ok (state se) ->
  Forall (full (capacity (state se))) (delivered se) ->
  well_batched (capacity (state se)) (flush se)
  /\ records (flush se) = stream se.
Proof.
  intros (Hcap & Hmri & Hri & _) Hfull. unfold flush, stream, pending.
  destruct (Z.eqb_spec (result_index (state se)) (-1)) as [He | Hne].
  - rewrite He. simpl. rewrite app_nil_r. split; [| reflexivity].
    exists (delivered se), []. rewrite app_nil_r.
    split; [reflexivity |]. split; [exact Hfull | left; reflexivity].
  - split.
    + eexists (delivered se), [_]. split; [reflexivity |].
      split; [exact Hfull |]. right. eexists. split; [reflexivity |].
      unfold on_event. simpl. rewrite length_take.
      unfold capacity in *. lia.
    + rewrite records_app. unfold records at 2, on_event. simpl.
      rewrite app_nil_r. reflexivity.
Qed.

(** The session proper: once constructed, [hyperscan] runs the loop on
    a fresh ring and flushes what is pending. *)
Lemma hyperscan_session heap file db bs bc mx :
  valid_config bc mx ->
  constructs heap (effective_count bc mx) ->
  session_post db bs bc mx (malloc_bytes heap (Z.to_nat bs))
    (lines_read heap file bs)
    (hyperscan heap file (Some db) bs bc mx).
Proof.
  intros Hv (Hs & Hr & Hl & Hsc).
  destruct (effective_count_range bc mx Hv) as (Hcap & _).
  assert (Hbc : bc <= INT_MAX) by apply Hv.
  unfold session_post, hyperscan.
  set (cap := effective_count bc mx) in *.
  assert (E1 : to_uint (cap - 1) = cap - 1)
    by (apply to_uint_small; unfold INT_MAX in *; lia).
  assert (E2 : to_int (to_uint (cap - 1 + 1)) = cap).
  { replace (cap - 1 + 1) with cap by lia.
    rewrite to_uint_small by (unfold INT_MAX in *; lia).
    apply to_int_small. unfold INT_MAX in *. lia. }
  rewrite Hs, E1, E2, Hr. simpl negb.
  replace (0 <=? cap) with true by (symmetry; apply Z.leb_le; lia).
  simpl. rewrite Hl, Hsc. simpl.
  unfold hyperscan_gz.
  set (ret0 := if match file with Some _ => true | None => false end
               then 0 else HYPERSCANNER_GZ_OPEN).
  set (w0 := mk_scanner (malloc_bytes heap (Z.to_nat bs))
               (mk_session
                  (mk_state 0 0 None (cap - 1) (-1)
                     (replicate (Z.to_nat cap) (fresh_result heap))) []) []).
  assert (Hcap0 : capacity (state (sess w0)) = cap)
    by (unfold capacity; simpl; rewrite length_replicate; lia).
  assert (Hring0 : ring_ok (state (sess w0))).
  { unfold ring_ok. rewrite Hcap0. simpl. lia. }
  assert (Hret0 : ret0 <> HYPERSCANNER_SCAN)
    by (unfold ret0; destruct file; discriminate).
  destruct (scan_loop_spec db bs mx (lines_read heap file bs) ret0 w0 Hring0)
    as (new & Hsc1 & Hpre & Hring1 & Hcap1 & (more & Hdel & Hfull)
        & Hstream & Hmc & Hsteady & Htotal & Hdone).
  rewrite Hcap0 in *.
  change (scanned w0) with (@nil (list byte)) in Hsc1.
  change (delivered (sess w0)) with (@nil batch) in Hdel.
  change (stream (sess w0)) with (@nil hyperscanner_result) in Hstream.
  change (line_number (state (sess w0))) with 0 in Hstream.
  change (match_count (state (sess w0))) with 0 in Hmc, Hsteady.
  change (buf w0) with (malloc_bytes heap (Z.to_nat bs)) in Hpre, Hdone, Htotal.
  simpl in Hsc1, Hdel, Hstream, Hmc.
  destruct (scan_loop db bs mx (lines_read heap file bs) ret0 w0)
    as [[r w1] | f [r w1]]; simpl in *.
  - (* the loop returned: flush and cleanup *)
    rewrite <- Hcap1 in Hfull. rewrite <- Hdel in Hfull.
    destruct (flush_spec (sess w1) Hring1 Hfull) as (Hwb & Hrec).
    rewrite Hcap1 in Hwb.
    rewrite Hsc1.
    split; [exact Hpre |]. split; [exact Hsteady |]. split; [exact Hwb |].
    split; [rewrite Hrec, Hstream; reflexivity |].
    split; [left; exact I |].
    intros rep' _. split; [rewrite Hrec, Hstream; reflexivity |].
    destruct (Hdone r w1 eq_refl) as [(Hr7 & Hlast) | (Hr0 & Hall & Hend)].
    + left. split; assumption.
    + right. split; [rewrite Hr0; exact Hret0 |]. split; [exact Hall |].
      destruct Hend as [Hv' | Hq]; [left; exact Hv' | right].
      rewrite Hmc in Hq. exact Hq.
  - (* the loop ran into undefined behaviour: nothing is flushed *)
    rewrite Hsc1.
    split; [exact Hpre |]. split; [exact Hsteady |].
    split.
    { exists (delivered (sess w1)), []. rewrite app_nil_r.
      split; [reflexivity |]. split; [| left; reflexivity].
      rewrite Hdel. exact Hfull. }
    split.
    { rewrite <- Hstream. unfold stream. apply prefix_app_r. reflexivity. }
    split; [destruct Htotal as [[] | Ht]; right; exact Ht |].
    intros rep' Hd. discriminate Hd.
Qed.

End Session.

Section Occurrences.

Variable db : database.

Lemma length_occurrences_of n s :
  length (occurrences_of db n s) = length (fst (hs_scan db s)).
Proof. unfold occurrences_of. apply length_map. Qed.

Lemma length_numbered spans :
  forall n, Z.of_nat (length (numbered db n spans)) = tally db spans.
Proof.
  induction spans as [| s r IH]; intros n; simpl; [reflexivity |].
  rewrite length_app, length_occurrences_of, Nat2Z.inj_add, IH. reflexivity.
Qed.

Lemma tally_app p q : tally db (p ++ q) = tally db p + tally db q.
Proof. induction p as [| s p IH]; simpl; [reflexivity | rewrite IH; lia]. Qed.

Lemma tally_nonneg spans : 0 <= tally db spans.
Proof. induction spans as [| s r IH]; simpl; lia. Qed.

(** While the line counter does not wrap, it is the index of the line. *)
Lemma numbered_occurrences spans :
  forall n, 0 <= n -> n + Z.of_nat (length spans) <= 2 ^ 64 ->
  numbered db n spans = occurrences db n spans.
Proof.
  induction spans as [| s r IH]; intros n Hn Hlen; simpl; [reflexivity |].
  f_equal. destruct r as [| s' r']; [reflexivity |].
  simpl length in *. rewrite to_ull_small by lia. apply IH; simpl length; lia.
Qed.



End Occurrences.

Section SessionCases.


(** Every session either scans and delivers nothing, or is a
    constructed session over a compiled database. *)
Lemma hyperscan_cases heap file compiled bs bc mx :
  valid_config bc mx ->
  let o := hyperscan heap file compiled bs bc mx in
  (batches (carried o) = [] /\ spans (carried o) = [])
  \/ exists db,
       compiled = Some db
       /\ constructs heap (effective_count bc mx)
       /\ session_post db bs bc mx (malloc_bytes heap (Z.to_nat bs))
            (lines_read heap file bs) o.
Proof.
  intros Hv o. subst o.
  destruct (hyperscan_quiet heap file compiled bs bc mx) as [Hq | (Hc & db & ->)];
    [left; exact Hq | right].
  exists db. split; [reflexivity |].
  destruct (effective_count_range bc mx Hv) as (Hcap & _).
  assert (Hbc : bc <= INT_MAX) by apply Hv.
  assert (E : to_int (to_uint (to_uint (effective_count bc mx - 1) + 1))
              = effective_count bc mx).
  { rewrite (to_uint_small (effective_count bc mx - 1))
      by (unfold INT_MAX in *; lia).
    replace (effective_count bc mx - 1 + 1) with (effective_count bc mx) by lia.
    rewrite to_uint_small by (unfold INT_MAX in *; lia).
    apply to_int_small. unfold INT_MAX in *. lia. }
  rewrite E in Hc. split; [exact Hc |].
  apply hyperscan_session; assumption.
Qed.

(** A scan followed by another let the loop go on: it succeeded and
    left the match counter below the quota. *)
Lemma steady_split db mx (p : list (list byte)) :
  forall spans mc s q,
  steady db mx mc spans ->
  spans = p ++ s :: q ->
  q <> [] ->
  snd (hs_scan db s) = true
  /\ ~ 0 < mx <= to_ull (mc + tally db (p ++ [s])).
Proof.
  induction p as [| a p IH]; intros spans mc s q Hst -> Hq.
  - destruct q as [| s' q']; [congruence |]. simpl in Hst.
    destruct Hst as (Hgo & _). unfold goes_on in Hgo.
    apply andb_true_iff in Hgo. destruct Hgo as (Hok & Hnq).
    split; [exact Hok |]. simpl. rewrite Z.add_0_r.
    apply negb_true_iff, andb_false_iff in Hnq. lia.
  - simpl in Hst.
    destruct (p ++ s :: q) as [| x rest] eqn:E;
      [destruct p; discriminate |].
    destruct Hst as (_ & Hst).
    destruct (IH (x :: rest) _ s q Hst (eq_sym E) Hq) as (Hok & Hnq).
    split; [exact Hok |].
    rewrite to_ull_add_l in Hnq. simpl tally.
    replace (mc + (Z.of_nat (length (fst (hs_scan db a))) + tally db (p ++ [s])))
      with (mc + Z.of_nat (length (fst (hs_scan db a))) + tally db (p ++ [s]))
      by lia.
    exact Hnq.
Qed.

Lemma well_batched_counts cap bs :
  1 <= cap -> well_batched cap bs ->
  Forall (fun bt => 1 <= result_count bt <= cap
                    /\ Z.of_nat (length (batch_results bt)) = result_count bt) bs.
Proof.
  intros Hcap (fulls & tail & -> & Hfull & Htail).
  apply Forall_app. split.
  - eapply Forall_impl; [exact Hfull |].
    intros bt (Hc & Hl). simpl. lia.
  - destruct Htail as [-> | (bt & -> & Hc & Hl)]; constructor; [| constructor].
    lia.
Qed.

(** The batches of any session of at least one slot are full batches of
    its effective capacity, then at most one smaller, non-empty one. *)
Lemma session_batches heap file compiled bs bc mx :
  valid_config bc mx ->
  well_batched (effective_count bc mx)
    (batches (carried (hyperscan heap file compiled bs bc mx))).
Proof.
  intros Hv.
  destruct (hyperscan_cases heap file compiled bs bc mx Hv)
    as [(Hb & _) | (db & _ & _ & Hpost)].
  - rewrite Hb. exists [], []. split; [reflexivity |].
    split; [constructor | left; reflexivity].
  - apply Hpost.
Qed.

End SessionCases.

Section Views.

Variable buffer_size : Z.

Lemma until_nul_app l r : until_nul (l ++ x00 :: r) = Some (before_nul l).
Proof.
  induction l as [| c l IH]; simpl; [reflexivity |].
  destruct (is_nul c); [reflexivity |]. rewrite IH. reflexivity.
Qed.

Lemma drop_leading_nuls l : drop (leading_nuls l) l = skip_nuls l.
Proof.
  induction l as [| c l IH]; simpl; [reflexivity |].
  destruct (is_nul c); [exact IH | reflexivity].
Qed.

Lemma leading_nuls_le l : (leading_nuls l <= length l)%nat.
Proof.
  induction l as [| c l IH]; simpl; [lia |]. destruct (is_nul c); simpl; lia.
Qed.

Lemma first_nonzero_app l r :
  forall i, skip_nuls l <> [] ->
  first_nonzero (l ++ r) i = Some (i + leading_nuls l)%nat.
Proof.
  induction l as [| c l IH]; intros i Hne; simpl in *; [congruence |].
  destruct (is_nul c).
  - rewrite IH by exact Hne. f_equal. lia.
  - f_equal. lia.
Qed.

(** The span of a line holding a non-zero byte is the text of that line,
    whatever the buffer held before. *)
Lemma view_of_line (b l : list byte) :
  skip_nuls l <> [] ->
  Z.of_nat (length l) < buffer_size ->
  view buffer_size (store_line b l) = Some (text_of l).
Proof.
  intros Hne Hlen. unfold view, store_line, text_of.
  destruct l as [| c t]; [simpl in Hne; congruence |].
  simpl app. unfold line_start.
  destruct (is_nul c) eqn:Hc.
  - simpl in Hne. rewrite Hc in Hne.
    simpl length in Hlen.
    rewrite take_app, (take_ge t) by lia.
    rewrite first_nonzero_app by exact Hne.
    unfold c_string. simpl drop.
    pose proof (leading_nuls_le t) as Hle.
    rewrite drop_app_le by exact Hle.
    rewrite drop_leading_nuls, until_nul_app.
    simpl. rewrite Hc. reflexivity.
  - unfold c_string. simpl drop.
    replace (skip_nuls (c :: t)) with (c :: t) by (simpl; rewrite Hc; reflexivity).
    exact (until_nul_app (c :: t) _).
Qed.

Lemma skip_nuls_replicate k text :
  skip_nuls (replicate k x00 ++ text) = skip_nuls text.
Proof. induction k as [| k IH]; simpl; [reflexivity | exact IH]. Qed.

(** When no line consists of zero bytes only, the spans are the texts of
    the lines, one per line. *)
Lemma views_of_lines (lines : list (list byte)) :
  forall b,
  Forall (fun l => skip_nuls l <> [] /\ Z.of_nat (length l) < buffer_size) lines ->
  views buffer_size b lines = map text_of lines.
Proof.
  induction lines as [| l rest IH]; intros b Hall; simpl; [reflexivity |].
  apply Forall_cons in Hall. destruct Hall as ((Hne & Hlen) & Hrest).
  rewrite view_of_line by assumption. f_equal. apply IH. exact Hrest.
Qed.

Lemma read_line_length (n : nat) :
  forall s, (length (fst (read_line n s)) <= n)%nat.
Proof.
  induction n as [| n IH]; intros s; simpl; [lia |].
  destruct s as [| c s]; simpl; [lia |].
  destruct (Byte.eqb c newline); simpl; [lia |].
  specialize (IH s). destruct (read_line n s) as [l r]. simpl in *. lia.
Qed.

Lemma read_line_app (n : nat) :
  forall s, fst (read_line n s) ++ snd (read_line n s) = s.
Proof.
  induction n as [| n IH]; intros s; simpl; [reflexivity |].
  destruct s as [| c s]; simpl; [reflexivity |].
  destruct (Byte.eqb c newline); simpl; [reflexivity |].
  specialize (IH s). destruct (read_line n s) as [l r]. simpl in *.
  rewrite IH. reflexivity.
Qed.

Lemma read_line_nil (n : nat) (s : list byte) :
  (1 <= n)%nat -> fst (read_line n s) = [] -> s = [].
Proof.
  destruct n as [| n]; [lia |]. intros _. simpl.
  destruct s as [| c s]; [reflexivity |].
  destruct (Byte.eqb c newline); simpl; [discriminate |].
  destruct (read_line n s) as [l r]. simpl. discriminate.
Qed.

Lemma reads_concat (n : nat) (fuel : nat) :
  forall s, (1 <= n)%nat -> (length s <= fuel)%nat ->
  concat (reads fuel n s) = s.
Proof.
  induction fuel as [| fuel IH]; intros s Hn Hlen; simpl.
  - destruct s; [reflexivity | simpl in Hlen; lia].
  - pose proof (read_line_app n s) as Happ.
    pose proof (read_line_nil n s Hn) as Hnil.
    destruct (read_line n s) as [l r]. simpl in Happ, Hnil.
    destruct l as [| c l].
    + rewrite Hnil by reflexivity. reflexivity.
    + simpl. rewrite IH; [exact Happ | exact Hn |].
      rewrite <- Happ in Hlen. simpl in Hlen. rewrite length_app in Hlen. lia.
Qed.

(** The reads of a file put end to end are the file: with a buffer of at
    least two bytes nothing is lost and the fuel given suffices. *)
Lemma gzlines_concat (content : list byte) :
  2 <= buffer_size -> concat (gzlines buffer_size content) = content.
Proof.
  intros Hbs. unfold gzlines.
  destruct (Z.ltb_spec buffer_size 1) as [Hlt | Hge]; [lia |].
  apply reads_concat; lia.
Qed.

(** Every read of [gzgets] holds at least one byte and leaves room for
    the terminating zero. *)
Lemma gzlines_short (content : list byte) :
  Forall (fun l => l <> [] /\ Z.of_nat (length l) < buffer_size)
         (gzlines buffer_size content).
Proof.
  unfold gzlines. destruct (Z.ltb_spec buffer_size 1) as [Hlt | Hge];
    [constructor |].
  generalize (length content) as fuel. intros fuel. revert content.
  induction fuel as [| fuel IH]; intros content; simpl; [constructor |].
  pose proof (read_line_length (Z.to_nat (buffer_size - 1)) content) as Hlen.
  destruct (read_line (Z.to_nat (buffer_size - 1)) content) as [l r].
  destruct l as [| c l]; [constructor |].
  constructor; [| apply IH].
  split; [discriminate |]. simpl in *. lia.
Qed.

End Views.

Section Returns.

(** A constructed session over a file none of whose lines is made of
    zero bytes only returns: every line has a span, the text of the
    line. *)
Lemma hyperscan_returns heap file db bs bc mx :
  valid_config bc mx ->
  constructs heap (effective_count bc mx) ->
  Forall (fun l => skip_nuls l <> []) (lines_read heap file bs) ->
  returned (hyperscan heap file (Some db) bs bc mx)
  /\ views bs (malloc_bytes heap (Z.to_nat bs)) (lines_read heap file bs)
     = map text_of (lines_read heap file bs).
Proof.
  intros Hv Hc Hnz.
  assert (Hshort : Forall (fun l => Z.of_nat (length l) < bs)
                          (lines_read heap file bs)).
  { unfold lines_read. destruct file as [content |]; [| constructor].
    destruct (buf_ok heap); [| constructor].
    eapply Forall_impl; [apply gzlines_short |]. simpl. tauto. }
  assert (Hviews : views bs (malloc_bytes heap (Z.to_nat bs)) (lines_read heap file bs)
                   = map text_of (lines_read heap file bs)).
  { apply views_of_lines.
    induction (lines_read heap file bs) as [| l rest IH]; [constructor |].
    apply Forall_cons in Hnz. apply Forall_cons in Hshort.
    constructor; [tauto | apply IH; tauto]. }
  split; [| exact Hviews].
  destruct (hyperscan_session heap file db bs bc mx Hv Hc)
    as (_ & _ & _ & _ & [Hret | (Hsp & Hlt & _)] & _); [exact Hret |].
  rewrite Hsp, Hviews, length_map in Hlt. lia.
Qed.

End Returns.

Section LeadingNuls.

(** Two sessions that differ only in the line pointer, the pointers
    designating the same string, stay so through a callback. *)
Lemma hs_callback_forget b1 b2 i se1 se2 o1 o2 :
  line (state se1) = Some o1 ->
  line (state se2) = Some o2 ->
  c_string b1 o1 = c_string b2 o2 ->
  set_line None se1 = set_line None se2 ->
  match hs_callback b1 i se1, hs_callback b2 i se2 with
  | Done a1, Done a2 =>
      set_line None a1 = set_line None a2
      /\ line (state a1) = Some o1 /\ line (state a2) = Some o2
  | Undefined f1 a1, Undefined f2 a2 =>
      f1 = f2 /\ set_line None a1 = set_line None a2
  | _, _ => False
  end.
Proof.
  destruct se1 as [[mc1 ln1 l1 mri1 ri1 rs1] dl1].
  destruct se2 as [[mc2 ln2 l2 mri2 ri2 rs2] dl2].
  simpl. intros -> -> Hstr Heq.
  unfold set_line in Heq. simpl in Heq.
  injection Heq as -> -> -> -> -> ->.
  unfold hs_callback. simpl. rewrite Hstr.
  destruct ((0 <=? to_int (ri2 + 1)) && (to_int (ri2 + 1) <? Z.of_nat (length rs2)));
    [| split; reflexivity].
  destruct (c_string b2 o2); [| split; reflexivity].
  destruct (to_uint (to_int (ri2 + 1)) =? mri2); simpl; auto.
Qed.

Lemma run_callbacks_forget b1 b2 o1 o2 (ids : list Z) :
  forall se1 se2,
  line (state se1) = Some o1 ->
  line (state se2) = Some o2 ->
  c_string b1 o1 = c_string b2 o2 ->
  set_line None se1 = set_line None se2 ->
  match run_callbacks b1 ids se1, run_callbacks b2 ids se2 with
  | Done a1, Done a2 => set_line None a1 = set_line None a2
  | Undefined f1 a1, Undefined f2 a2 =>
      f1 = f2 /\ set_line None a1 = set_line None a2
  | _, _ => False
  end.
Proof.
  induction ids as [| i ids IH]; intros se1 se2 H1 H2 Hstr Heq; simpl.
  - exact Heq.
  - pose proof (hs_callback_forget b1 b2 i se1 se2 o1 o2 H1 H2 Hstr Heq) as Hcb.
    destruct (hs_callback b1 i se1) as [a1 | f1 a1],
             (hs_callback b2 i se2) as [a2 | f2 a2]; try contradiction.
    + destruct Hcb as (Ha & Hl1 & Hl2). apply IH; assumption.
    + exact Hcb.
Qed.

End LeadingNuls.

Section Resources.

(** Splits a membership in a list built from appends, maps, conditionals
    and explicit elements into its cases. *)
Ltac in_cases H :=
  repeat match type of H with
  | In _ (_ ++ _) => apply in_app_or in H; destruct H as [H | H]
  | In _ (map _ _) => apply in_map_iff in H; destruct H as (? & H & ?)
  | In _ (if ?c then _ else _) => destruct c
  | In _ (_ :: _) => destruct H as [H | H]
  | In _ [] => destruct H
  | _ \/ _ => destruct H as [H | H]
  | False => destruct H
  end.

(** What [cleanup] adds to the resource trace are releases of slot
    lines, of the state block, of the scratch and of the database. *)
Lemma cleanup_releases r sp ra sc d rep e :
  In e (resources (carried (cleanup r sp ra sc d rep))) ->
  In e (resources rep)
  \/ (exists i, e = Release (RLine i))
  \/ e = Release RState \/ e = Release RScratch \/ e = Release RDatabase.
Proof.
  unfold cleanup. intros H.
  destruct ra as [n |]; [| left; exact H].
  destruct sc as [s |]; [destruct d as [dd |] |]; simpl in H; in_cases H;
    subst; eauto 6.
Qed.

Lemma hyperscan_gz_events heap file se db bs mx e :
  In e (snd (hyperscan_gz heap file se db bs mx)) ->
  e = Acquire RFile \/ e = Release RFile \/ e = Acquire RBuf \/ e = Release RBuf.
Proof.
  unfold hyperscan_gz. intros H.
  destruct (scan_loop db bs mx _ _ _); simpl in H; in_cases H; subst; auto.
Qed.

(** No path of [hyperscan] releases the results array. *)
Lemma results_never_released heap file compiled bs bc mx :
  ~ In (Release RResults)
       (resources (carried (hyperscan heap file compiled bs bc mx))).
Proof.
  unfold hyperscan. intros H.
  destruct (state_ok heap); simpl negb in H; cbv iota in H.
  2:{ apply cleanup_releases in H. simpl in H.
      destruct H as [[] | [(i & H) | [H | [H | H]]]]; discriminate. }
  destruct (negb (results_ok heap && _)).
  { apply cleanup_releases in H. simpl in H.
    destruct H as [[H | []] | [(i & H) | [H | [H | H]]]]; discriminate. }
  destruct (alloc_lines heap _ 0).
  { apply cleanup_releases in H. simpl in H.
    destruct H as [H | [(i & H) | [H | [H | H]]]]; try discriminate.
    in_cases H; discriminate. }
  destruct compiled as [db |].
  2:{ apply cleanup_releases in H. simpl in H.
      destruct H as [H | [(i & H) | [H | [H | H]]]]; try discriminate.
      in_cases H; discriminate. }
  destruct (scratch_ok heap); simpl negb in H; cbv iota in H.
  2:{ apply cleanup_releases in H. simpl in H.
      destruct H as [H | [(i & H) | [H | [H | H]]]]; try discriminate.
      in_cases H; discriminate. }
  pose proof (hyperscan_gz_events heap file
                (mk_session
                   (mk_state 0 0 None
                      (to_uint (effective_count bc mx - 1)) (-1)
                      (replicate
                         (Z.to_nat (to_int (to_uint (to_uint (effective_count bc mx - 1) + 1))))
                         (fresh_result heap))) [])
                db bs mx (Release RResults)) as Hgz.
  destruct (hyperscan_gz heap file _ db bs mx) as [[[r w] | f [r w]] ev].
  - apply cleanup_releases in H. simpl in H, Hgz.
    destruct H as [H | [(i & H) | [H | [H | H]]]]; try discriminate.
    in_cases H; try discriminate.
    destruct (Hgz H) as [E | [E | [E | E]]]; discriminate.
  - simpl in H, Hgz. in_cases H; try discriminate.
    destruct (Hgz H) as [E | [E | [E | E]]]; discriminate.
Qed.

Lemma cleanup_extends r sp ra sc d rep e :
  In e (resources rep) ->
  In e (resources (carried (cleanup r sp ra sc d rep))).
Proof.
  intros H. unfold cleanup.
  destruct ra as [n |]; [| exact H].
  destruct sc as [s |]; [destruct d as [dd |] |]; simpl;
    rewrite ?in_app_iff; auto.
Qed.

(** The slots whose line buffer a constructed session allocates are
    those of a ring of the effective capacity. *)
Lemma ring_slots_acquired heap file db bs bc mx (i : nat) :
  valid_config bc mx ->
  constructs heap (effective_count bc mx) ->
  In (Acquire (RLine i))
     (resources (carried (hyperscan heap file (Some db) bs bc mx)))
  <-> Z.of_nat i < effective_count bc mx.
Proof.
  intros Hv (Hs & Hr & Hl & Hsc).
  destruct (effective_count_range bc mx Hv) as (Hcap & _).
  assert (Hbc : bc <= INT_MAX) by apply Hv.
  unfold hyperscan.
  set (cap := effective_count bc mx) in *.
  assert (E1 : to_uint (cap - 1) = cap - 1)
    by (apply to_uint_small; unfold INT_MAX in *; lia).
  assert (E2 : to_int (to_uint (cap - 1 + 1)) = cap).
  { replace (cap - 1 + 1) with cap by lia.
    rewrite to_uint_small by (unfold INT_MAX in *; lia).
    apply to_int_small. unfold INT_MAX in *. lia. }
  rewrite Hs, E1, E2, Hr. simpl negb.
  replace (0 <=? cap) with true by (symmetry; apply Z.leb_le; lia).
  simpl. rewrite Hl, Hsc. simpl.
  set (se0 := mk_session _ _).
  pose proof (hyperscan_gz_events heap file se0 db bs mx (Acquire (RLine i))) as Hgz.
  assert (Hseq : In (Acquire (RLine i))
                    (map (fun k => Acquire (RLine k)) (seq 0 (Z.to_nat cap)))
                 <-> Z.of_nat i < cap).
  { rewrite in_map_iff. split.
    - intros (k & Hk & Hin). injection Hk as ->. apply in_seq in Hin. lia.
    - intros Hi. exists i. split; [reflexivity |]. apply in_seq. lia. }
  destruct (hyperscan_gz heap file se0 db bs mx) as [[[r w] | f [r w]] ev];
    simpl in Hgz; simpl; split; intros H.
  - in_cases H; try discriminate.
    + apply Hseq. apply in_map_iff. eexists. split; [exact H | assumption].
    + destruct (Hgz H) as [E | [E | [E | E]]]; discriminate.
  - do 2 right. repeat (apply in_app_iff; left). apply Hseq. exact H.
  - in_cases H; try discriminate.
    + apply Hseq. apply in_map_iff. eexists. split; [exact H | assumption].
    + destruct (Hgz H) as [E | [E | [E | E]]]; discriminate.
  - do 2 right. repeat (apply in_app_iff; left). apply Hseq. exact H.
Qed.

End Resources.

Section Scenarios.

(** Patterns foo and bar, two slots, the three-line file: a full batch
    of two records, then a flush of two. *)
Example two_batches_of_two :
  batches (carried (hyperscan (heap_ok []) (Some three_lines) (Some foo_bar) 100 2 0))
  = [mk_batch 2 [mk_result 0 0 (bytes "foo" ++ [x0a]);
                 mk_result 1 1 (bytes "bar" ++ [x0a])];
     mk_batch 2 [mk_result 0 2 (bytes "foobar" ++ [x0a]);
                 mk_result 1 2 (bytes "foobar" ++ [x0a])]].
Proof. vm_compute. reflexivity. Qed.

(** The same with a quota of one: one record, one matcher call. *)
Example quota_of_one :
  let rep := carried (hyperscan (heap_ok []) (Some three_lines) (Some foo_bar) 100 2 1) in
  batches rep = [mk_batch 1 [mk_result 0 0 (bytes "foo" ++ [x0a])]]
  /\ spans rep = [bytes "foo" ++ [x0a]].
Proof. vm_compute. split; reflexivity. Qed.

(** A file that cannot be opened: status [HYPERSCANNER_GZ_OPEN], no
    batch, no matcher call. *)
Example missing_file :
  let rep := carried (hyperscan (heap_ok []) None (Some foo_bar) 100 2 0) in
  ret rep = HYPERSCANNER_GZ_OPEN /\ batches rep = [] /\ spans rep = [].
Proof. vm_compute. repeat split; reflexivity. Qed.

End Scenarios.

(** * The claims *)

(** C2.  For a session of at least one slot, every invocation of the
    caller's batch callback passes a count between 1 and the configured
    [buffer_count], equal to the number of records handed over; the
    batches are full ones of the session's capacity followed by at most
    one smaller, non-empty batch from the end-of-session flush.  This
    holds for every execution, whether or not it runs to the end. *)
Theorem batch_count_bounds heap file compiled bs bc mx :
  valid_config bc mx ->
  let delivered_batches := batches (carried (hyperscan heap file compiled bs bc mx)) in
  Forall (fun bt => 1 <= result_count bt <= bc
                    /\ Z.of_nat (length (batch_results bt)) = result_count bt)
         delivered_batches
  /\ well_batched (effective_count bc mx) delivered_batches.
Proof.
  intros Hv. cbv zeta.
  destruct (effective_count_range bc mx Hv) as (Hcap & _).
  pose proof (session_batches heap file compiled bs bc mx Hv) as Hwb.
  split; [| exact Hwb].
  eapply Forall_impl; [apply (well_batched_counts _ _ (proj1 Hcap) Hwb) |].
  simpl. intros bt (Hc & Hl). split; [lia | exact Hl].
Qed.

Lemma batch_count_bounds_witness :
  let delivered_batches :=
    batches (carried (hyperscan (heap_ok []) (Some three_lines) (Some foo_bar) 100 2 0)) in
  Forall (fun bt => 1 <= result_count bt <= 2
                    /\ Z.of_nat (length (batch_results bt)) = result_count bt)
         delivered_batches
  /\ well_batched (effective_count 2 0) delivered_batches.
Proof.
  apply (batch_count_bounds (heap_ok []) (Some three_lines) (Some foo_bar) 100 2 0).
  unfold valid_config, INT_MAX, ULLONG_MAX. lia.
Defined.

(** C1, on the code: the records delivered are not always occurrences
    in the file's lines.  For a file whose single line is followed by
    three zero bytes, the second read holds the zero bytes alone, in
    which the Matcher finds nothing, be they taken as bytes or as text;
    the session returns all the same with a second record, numbered for
    that line and carrying bytes of the line before it. *)
Theorem record_for_a_line_without_occurrence :
  let o := hyperscan (heap_ok []) (Some padded_file) (Some foo_bar) 100 2 0 in
  let lines := gzlines 100 padded_file in
  lines = [bytes "hello foo" ++ [x0a]; [x00; x00; x00]]
  /\ fst (hs_scan foo_bar [x00; x00; x00]) = []
  /\ fst (hs_scan foo_bar (text_of [x00; x00; x00])) = []
  /\ occurrences foo_bar 0 lines = [mk_result 0 0 (bytes "hello foo" ++ [x0a])]
  /\ returned o
  /\ ret (carried o) = 0
  /\ records (batches (carried o))
     = [mk_result 0 0 (bytes "hello foo" ++ [x0a]);
        mk_result 0 1 (bytes "o foo" ++ [x0a])].
Proof. vm_compute. repeat split; reflexivity. Qed.

(** C7.  With a quota [mx > 0]: once the scan of a line has brought the
    number of matches to [mx] or more, that scan is the last matcher call
    of the session; the matches counted before that line were fewer than
    [mx], and the number of records delivered exceeds [mx] by at most the
    number of matches on that line. *)
Theorem quota_stops_the_scan heap file db bs bc mx :
  valid_config bc mx ->
  0 < mx ->
  let rep := carried (hyperscan heap file (Some db) bs bc mx) in
  tally db (spans rep) < 2 ^ 64 ->
  forall p s q,
    spans rep = p ++ s :: q ->
    mx <= tally db (p ++ [s]) ->
    q = []
    /\ tally db p < mx
    /\ Z.of_nat (length (records (batches rep)))
       <= mx + Z.of_nat (length (fst (hs_scan db s))).
Proof.
  intros Hv Hmx rep Hwrap p s q Hsp Hreach.
  destruct (hyperscan_cases heap file (Some db) bs bc mx Hv)
    as [(_ & Hs) | (db' & Hdb & _ & Hpost)].
  { fold rep in Hs. rewrite Hs in Hsp. destruct p; discriminate. }
  injection Hdb as <-. fold rep in Hpost.
  destruct Hpost as (_ & Hst & _ & Hrec & _ & _).
  pose proof (tally_nonneg db p) as Hp0.
  pose proof (tally_nonneg db q) as Hq0.
  pose proof (tally_nonneg db [s]) as Hs0.
  assert (Htot : tally db (spans rep) = tally db p + tally db [s] + tally db q).
  { rewrite Hsp. rewrite (tally_app db p (s :: q)).
    change (s :: q) with ([s] ++ q). rewrite (tally_app db [s] q). lia. }
  rewrite tally_app in Hreach.
  assert (Hq : q = []).
  { destruct q as [| s' q']; [reflexivity | exfalso].
    destruct (steady_split db mx p (spans rep) 0 s (s' :: q') Hst Hsp) as (_ & Hn);
      [discriminate |].
    apply Hn. rewrite Z.add_0_l, tally_app, to_ull_small; lia. }
  subst q. split; [reflexivity |].
  assert (Hbefore : tally db p < mx).
  { destruct (list_eq_nil_dec p) as [-> | Hne]; [simpl; lia |].
    destruct (exists_last Hne) as (p' & s' & ->).
    rewrite <- app_assoc in Hsp. simpl in Hsp.
    destruct (steady_split db mx p' (spans rep) 0 s' [s] Hst Hsp) as (_ & Hn);
      [discriminate |].
    rewrite Z.add_0_l, to_ull_small in Hn; [lia |].
    pose proof (tally_nonneg db (p' ++ [s'])). lia. }
  split; [exact Hbefore |].
  apply prefix_length in Hrec.
  pose proof (length_numbered db (spans rep) 0) as Hnum.
  fold rep in Hrec. simpl tally in Htot, Hs0. lia.
Qed.

Lemma quota_stops_the_scan_witness :
  let rep := carried (hyperscan (heap_ok []) (Some three_lines) (Some foo_bar) 100 4 2) in
  @nil (list byte) = []
  /\ tally foo_bar [bytes "foo" ++ [x0a]] < 2
  /\ Z.of_nat (length (records (batches rep)))
     <= 2 + Z.of_nat (length (fst (hs_scan foo_bar (bytes "bar" ++ [x0a])))).
Proof.
  apply (quota_stops_the_scan (heap_ok []) (Some three_lines) foo_bar 100 4 2).
  - unfold valid_config, INT_MAX, ULLONG_MAX. lia.
  - lia.
  - vm_compute. reflexivity.
  - reflexivity.
  - vm_compute. discriminate.
Defined.

(** C8.  When a matcher call of a session fails, the session returns,
    with status [HYPERSCANNER_SCAN]; the failing call is its last one
    (every earlier call succeeded and no later line is scanned); and
    every occurrence reported up to and during the failing call has been
    delivered, the pending ones through the end-of-session flush. *)
Theorem scan_failure_aborts_and_flushes heap file db bs bc mx s :
  valid_config bc mx ->
  let o := hyperscan heap file (Some db) bs bc mx in
  let rep := carried o in
  In s (spans rep) ->
  snd (hs_scan db s) = false ->
  o = Done rep
  /\ ret rep = HYPERSCANNER_SCAN
  /\ (exists p, spans rep = p ++ [s]
                /\ Forall (fun s' => snd (hs_scan db s') = true) p)
  /\ records (batches rep) = numbered db 0 (spans rep)
  /\ well_batched (effective_count bc mx) (batches rep).
Proof.
  intros Hv. cbv zeta. intros Hin Hfail.
  destruct (hyperscan_cases heap file (Some db) bs bc mx Hv)
    as [(_ & Hs) | (db' & Hdb & _ & Hpost)].
  { rewrite Hs in Hin. destruct Hin. }
  injection Hdb as <-.
  destruct Hpost as (_ & Hst & Hwb & _ & Htotal & Hdone).
  destruct Htotal as [Hret | (_ & _ & Hall)].
  2:{ rewrite Forall_forall in Hall. apply list_elem_of_In, Hall in Hin.
      congruence. }
  destruct (hyperscan heap file (Some db) bs bc mx) as [rep | f rep];
    [| destruct Hret].
  simpl in *. split; [reflexivity |].
  destruct (Hdone rep eq_refl)
    as (Hrec & [(Hr7 & p & s' & Hsp & Hfail') | (_ & Hall & _)]).
  2:{ rewrite Forall_forall in Hall. apply list_elem_of_In, Hall in Hin.
      congruence. }
  assert (Hp : Forall (fun x => snd (hs_scan db x) = true) p).
  { apply Forall_forall. intros x Hx.
    apply list_elem_of_In, in_split in Hx. destruct Hx as (p1 & p2 & ->).
    rewrite <- app_assoc in Hsp. simpl in Hsp.
    destruct (steady_split db mx p1 (spans rep) 0 x (p2 ++ [s']) Hst Hsp) as (Hok & _);
      [destruct p2; discriminate | exact Hok]. }
  split; [exact Hr7 |]. split; [| split; [exact Hrec | exact Hwb]].
  exists p. split; [| exact Hp].
  rewrite Hsp in Hin. apply in_app_iff in Hin. destruct Hin as [Hin | [-> | []]].
  - rewrite Forall_forall in Hp. apply list_elem_of_In, Hp in Hin. congruence.
  - exact Hsp.
Qed.

(** A file whose second line makes [foo_fails_on_bar] fail. *)
Lemma scan_failure_aborts_and_flushes_witness :
  let o := hyperscan (heap_ok []) (Some three_lines)
             (Some foo_fails_on_bar) 100 2 0 in
  let rep := carried o in
  o = Done rep
  /\ ret rep = HYPERSCANNER_SCAN
  /\ (exists p, spans rep = p ++ [bytes "bar" ++ [x0a]]
                /\ Forall (fun s' => snd (hs_scan foo_fails_on_bar s') = true) p)
  /\ records (batches rep) = numbered foo_fails_on_bar 0 (spans rep)
  /\ well_batched (effective_count 2 0) (batches rep).
Proof.
  apply (scan_failure_aborts_and_flushes (heap_ok []) (Some three_lines)
           foo_fails_on_bar 100 2 0).
  - unfold valid_config, INT_MAX, ULLONG_MAX. lia.
  - simpl. right. left. reflexivity.
  - reflexivity.
Defined.

(** C10.  With [0 < mx < buffer_count] the session runs with a ring of
    [mx] slots, the only ones it allocates: every batch carries between
    1 and [mx] records, and as soon as [mx] occurrences have been
    reported the first batch is handed over with exactly the first [mx]
    records. *)
Theorem quota_caps_the_batch_size heap file compiled bs bc mx :
  valid_config bc mx ->
  0 < mx < bc ->
  let o := hyperscan heap file compiled bs bc mx in
  effective_count bc mx = mx
  /\ (forall db (i : nat),
        compiled = Some db ->
        constructs heap mx ->
        In (Acquire (RLine i)) (resources (carried o)) <-> Z.of_nat i < mx)
  /\ Forall (fun bt => 1 <= result_count bt <= mx
                       /\ Z.of_nat (length (batch_results bt)) = result_count bt)
            (batches (carried o))
  /\ well_batched mx (batches (carried o))
  /\ (forall db rep,
        compiled = Some db ->
        o = Done rep ->
        mx <= tally db (spans rep) ->
        exists bt rest,
          batches rep = bt :: rest
          /\ result_count bt = mx
          /\ batch_results bt = take (Z.to_nat mx) (numbered db 0 (spans rep))).
Proof.
  intros Hv Hmx. cbv zeta.
  destruct (effective_count_range bc mx Hv) as (_ & Heff & _).
  specialize (Heff Hmx).
  pose proof (session_batches heap file compiled bs bc mx Hv) as Hwb.
  rewrite Heff in Hwb.
  split; [exact Heff |].
  split.
  { intros db i -> Hc.
    pose proof (ring_slots_acquired heap file db bs bc mx i Hv) as Hring.
    rewrite Heff in Hring. apply Hring. exact Hc. }
  split; [apply well_batched_counts; [lia | exact Hwb] |].
  split; [exact Hwb |].
  intros db rep -> Hrun Hreach.
  destruct (hyperscan_cases heap file (Some db) bs bc mx Hv)
    as [(_ & Hs) | (db' & Hdb & _ & Hpost)].
  { rewrite Hrun in Hs. simpl in Hs. rewrite Hs in Hreach. simpl in Hreach. lia. }
  injection Hdb as <-. rewrite Hrun in Hpost, Hwb. simpl in Hwb.
  destruct Hpost as (_ & _ & _ & _ & _ & Hdone). simpl in Hdone.
  destruct (Hdone rep eq_refl) as (Hrec & _).
  pose proof (length_numbered db (spans rep) 0) as Hnum.
  rewrite <- Hrec in Hnum.
  destruct Hwb as (fulls & tail & Hb & Hfull & Htail).
  destruct fulls as [| bt fulls].
  - exfalso. simpl in Hb. rewrite Hb in Hnum.
    destruct Htail as [-> | (bt & -> & Hc & Hl)].
    + simpl in Hnum. lia.
    + unfold records in Hnum. simpl in Hnum. rewrite app_nil_r in Hnum. lia.
  - exists bt, (fulls ++ tail). split; [exact Hb |].
    apply Forall_cons in Hfull. destruct Hfull as ((Hc & Hl) & _).
    split; [exact Hc |].
    rewrite <- Hrec, Hb. unfold records. simpl.
    rewrite take_app_length'; [reflexivity | lia].
Qed.

Lemma quota_caps_the_batch_size_witness :
  let o := hyperscan (heap_ok []) (Some three_lines) (Some foo_bar) 100 4 2 in
  effective_count 4 2 = 2
  /\ (forall db (i : nat),
        Some foo_bar = Some db ->
        constructs (heap_ok []) 2 ->
        In (Acquire (RLine i)) (resources (carried o)) <-> Z.of_nat i < 2)
  /\ Forall (fun bt => 1 <= result_count bt <= 2
                       /\ Z.of_nat (length (batch_results bt)) = result_count bt)
            (batches (carried o))
  /\ well_batched 2 (batches (carried o))
  /\ (forall db rep,
        Some foo_bar = Some db ->
        o = Done rep ->
        2 <= tally db (spans rep) ->
        exists bt rest,
          batches rep = bt :: rest
          /\ result_count bt = 2
          /\ batch_results bt = take (Z.to_nat 2) (numbered db 0 (spans rep))).
Proof.
  apply (quota_caps_the_batch_size (heap_ok []) (Some three_lines) (Some foo_bar) 100 4 2).
  - unfold valid_config, INT_MAX, ULLONG_MAX. lia.
  - lia.
Defined.

(** C9.  A line made of one or more zero bytes followed by text is
    scanned exactly as the text alone: the Matcher is handed the same
    span, so the same records are stored and delivered with the same
    line number, the quota test and the line-number increment come out
    the same, and so does the status.  The two iterations differ only in
    the content of the read buffer and the pointer into it. *)
Theorem leading_nuls_are_skipped db bs mx r w1 w2 (k : nat) (c : byte) (t : list byte) :
  (0 < k)%nat ->
  is_nul c = false ->
  Z.of_nat (k + length (c :: t)) < bs ->
  forget w1 = forget w2 ->
  view bs (store_line (buf w1) (replicate k x00 ++ c :: t))
  = Some (before_nul (c :: t))
  /\ view bs (store_line (buf w2) (c :: t)) = Some (before_nul (c :: t))
  /\ forget_outcome (scan_loop db bs mx [replicate k x00 ++ c :: t] r w1)
     = forget_outcome (scan_loop db bs mx [c :: t] r w2).
Proof.
  intros Hk Hc Hlen Hw.
  assert (Hskip : skip_nuls (c :: t) = c :: t) by (simpl; rewrite Hc; reflexivity).
  assert (Hv1 : view bs (store_line (buf w1) (replicate k x00 ++ c :: t))
                = Some (before_nul (c :: t))).
  { rewrite view_of_line.
    - unfold text_of. rewrite skip_nuls_replicate, Hskip. reflexivity.
    - rewrite skip_nuls_replicate, Hskip. discriminate.
    - rewrite length_app, length_replicate. lia. }
  assert (Hv2 : view bs (store_line (buf w2) (c :: t)) = Some (before_nul (c :: t))).
  { rewrite view_of_line.
    - unfold text_of. rewrite Hskip. reflexivity.
    - rewrite Hskip. discriminate.
    - lia. }
  split; [exact Hv1 |]. split; [exact Hv2 |].
  unfold view in Hv1, Hv2.
  assert (Hse : set_line None (sess w1) = set_line None (sess w2))
    by exact (f_equal sess Hw).
  assert (Hsc : scanned w1 = scanned w2) by exact (f_equal scanned Hw).
  unfold scan_loop.
  set (b1 := store_line (buf w1) (replicate k x00 ++ c :: t)) in *.
  set (b2 := store_line (buf w2) (c :: t)) in *.
  rewrite Hv1, Hv2.
  destruct (hs_scan db (before_nul (c :: t))) as [ids ok].
  pose proof (run_callbacks_forget b1 b2
                (line_start b1 bs) (line_start b2 bs) ids
                (set_line (Some (line_start b1 bs)) (sess w1))
                (set_line (Some (line_start b2 bs)) (sess w2))
                eq_refl eq_refl (eq_trans Hv1 (eq_sym Hv2)) Hse) as Hrun.
  destruct (run_callbacks b1 ids _) as [a1 | f1 a1],
           (run_callbacks b2 ids _) as [a2 | f2 a2]; try contradiction.
  - assert (Hmc : match_count (state a1) = match_count (state a2))
      by (injection Hrun; intros; assumption).
    rewrite Hmc, Hsc.
    destruct ok; simpl negb; cbv iota.
    + destruct ((mx >? 0) && (match_count (state a2) >=? mx)); simpl.
      * unfold forget. simpl. rewrite Hrun. reflexivity.
      * unfold forget. simpl.
        change (set_line None (next_line a1)) with (next_line (set_line None a1)).
        change (set_line None (next_line a2)) with (next_line (set_line None a2)).
        rewrite Hrun. reflexivity.
    + simpl. unfold forget. simpl. rewrite Hrun. reflexivity.
  - destruct Hrun as (-> & Hrun). simpl. unfold forget. simpl.
    rewrite Hrun, Hsc. reflexivity.
Qed.

Lemma leading_nuls_are_skipped_witness :
  view 100 (store_line (buf scanner_a) (replicate 2 x00 ++ bytes "foo" ++ [x0a]))
  = Some (before_nul (bytes "foo" ++ [x0a]))
  /\ view 100 (store_line (buf scanner_b) (bytes "foo" ++ [x0a]))
     = Some (before_nul (bytes "foo" ++ [x0a]))
  /\ forget_outcome (scan_loop foo_bar 100 0 [replicate 2 x00 ++ bytes "foo" ++ [x0a]] 0 scanner_a)
     = forget_outcome (scan_loop foo_bar 100 0 [bytes "foo" ++ [x0a]] 0 scanner_b).
Proof.
  apply (leading_nuls_are_skipped foo_bar 100 0 0 scanner_a scanner_b 2
           "f"%byte (bytes "oo" ++ [x0a])).
  - lia.
  - reflexivity.
  - simpl. lia.
  - reflexivity.
Defined.

(** C6, on the code: a line made only of zero bytes is not scanned as
    such.  For a file whose single line is followed by zero bytes, the
    second read holds three zero bytes; the strip loop runs past their
    terminator, and the Matcher is handed bytes the first line left in
    the buffer, which are reported as a match on line 1. *)
Theorem residual_bytes_are_scanned :
  let rep := carried (hyperscan (heap_ok []) (Some padded_file) (Some foo_bar) 100 2 0) in
  gzlines 100 padded_file = [bytes "hello foo" ++ [x0a]; [x00; x00; x00]]
  /\ spans rep = [bytes "hello foo" ++ [x0a]; bytes "o foo" ++ [x0a]]
  /\ records (batches rep)
     = [mk_result 0 0 (bytes "hello foo" ++ [x0a]);
        mk_result 0 1 (bytes "o foo" ++ [x0a])].
Proof. vm_compute. repeat split; reflexivity. Qed.

(** C5, on the code: a [buffer_count] of 0 is not rejected.  The session
    is constructed with an empty ring, the file is opened, its first line
    is scanned, and the first callback indexes slot 0 of the empty
    ring. *)
Theorem zero_capacity_is_not_rejected :
  hyperscan (heap_ok []) (Some three_lines) (Some foo_bar) 100 0 0
  = Undefined (RingIndex 0)
      (mk_report 0 [] [bytes "foo" ++ [x0a]]
         [Acquire RState; Acquire RResults; Acquire RDatabase;
          Acquire RScratch; Acquire RFile; Acquire RBuf]).
Proof. vm_compute. reflexivity. Qed.

(** C3, on the code: [cleanup] does not release what was constructed.  No
    path of [hyperscan] ever releases the results array, which a
    constructed session acquires; and when the state block cannot be
    allocated, the jump to [cleanup] skips the initialiser of
    [results_allocated], which the free loop then reads. *)
Theorem cleanup_leaks_the_results_array :
  (forall heap file compiled bs bc mx,
     ~ In (Release RResults)
          (resources (carried (hyperscan heap file compiled bs bc mx))))
  /\ In (Acquire RResults)
        (resources (carried (hyperscan (heap_ok []) (Some three_lines)
                               (Some foo_bar) 100 2 0)))
  /\ (forall ro lo so bo fb fr file compiled bs bc mx,
        hyperscan (mk_allocator false ro lo so bo fb fr) file compiled bs bc mx
        = Undefined (Uninitialised "results_allocated")
            (mk_report HYPERSCANNER_STATE_MEM [] [] [])).
Proof.
  split; [exact results_never_released |].
  split; [vm_compute; tauto |].
  intros. reflexivity.
Qed.

(** C4, on the code: [main] does not get to a second session.  Its
    arrays [pattern_flags] and [pattern_ids] have one element, and the
    iteration for the second file stores to index 1 of both: whatever
    the files hold, a command line with two or more files runs at most
    one session and then leaves defined behaviour, so neither is every
    file attempted nor is there a status to return.  With the files
    [missing] and [good], the first session ends with
    [HYPERSCANNER_GZ_OPEN] and [good] is never opened.  With one file
    alone the stores are in bounds and [main] passes on the outcome of
    its session. *)
Theorem main_stores_out_of_bounds_for_the_second_file :
  (forall w (prog pattern f1 f2 : string) (rest : list string),
     exists f st reps,
       main w (prog :: pattern :: f1 :: f2 :: rest) = Undefined f (st, reps)
       /\ (length reps <= 1)%nat)
  /\ main one_good_file missing_then_good
     = Undefined (OutOfBounds "pattern_flags" 1)
         (HYPERSCANNER_GZ_OPEN,
          [carried (hyperscan (heap_ok []) None (Some foo_bar) 65535 256 0)])
  /\ (forall w (prog pattern f : string),
        main w [prog; pattern; f]
        = match hyperscan (heap_of w O) (fs w f) (hs_compile w pattern 14 0)
                          65535 256 0 with
          | Done rep => Done (ret rep, [rep])
          | Undefined fl rep => Undefined fl (ret rep, [rep])
          end).
Proof.
  split; [| split].
  - intros w prog pattern f1 f2 rest.
    unfold main. cbn [main_loop].
    destruct (main_session w pattern 2 f1) as [fl | [rep | fl rep]].
    + eexists _, _, _. split; [reflexivity | simpl; lia].
    + change (main_session w pattern (2 + 1) f2)
        with (@inl fault (outcome report) (OutOfBounds "pattern_flags" 1)).
      eexists _, _, _. split; [reflexivity | simpl; lia].
    + eexists _, _, _. split; [reflexivity | simpl; lia].
  - vm_compute. reflexivity.
  - intros w prog pattern f. unfold main. cbn [main_loop].
    change (main_session w pattern 2 f)
      with (@inr fault _ (hyperscan (heap_of w O) (fs w f)
                            (hs_compile w pattern 14 0) 65535 256 0)).
    destruct (hyperscan _ _ _ _ _ _); reflexivity.
Qed.

(** * Further properties of the session *)

Section Status.

Lemma scan_loop_status db bs mx (lines : list (list byte)) :
  forall r w,
  fst (carried (scan_loop db bs mx lines r w)) = r
  \/ fst (carried (scan_loop db bs mx lines r w)) = HYPERSCANNER_SCAN.
Proof.
  induction lines as [| l rest IH]; intros r w; simpl; [left; reflexivity |].
  destruct (c_string _ _) as [span |]; [| left; reflexivity].
  destruct (hs_scan db span) as [ids ok].
  destruct (run_callbacks _ ids _) as [se' | f se']; [| left; reflexivity].
  destruct ok; simpl; [| right; reflexivity].
  destruct ((mx >? 0) && _); [left; reflexivity | apply IH].
Qed.

Lemma cleanup_ret r sp ra sc d rep :
  ret (carried (cleanup r sp ra sc d rep)) = r.
Proof. destruct ra, sc, d; reflexivity. Qed.

(** The status with which [hyperscan_gz] starts. *)
Lemma hyperscan_gz_status heap file se db bs mx :
  let r := fst (carried (fst (hyperscan_gz heap file se db bs mx))) in
  r = HYPERSCANNER_SCAN
  \/ r = match file with Some _ => 0 | None => HYPERSCANNER_GZ_OPEN end.
Proof.
  unfold hyperscan_gz.
  set (r0 := if match file with Some _ => true | None => false end
             then 0 else HYPERSCANNER_GZ_OPEN).
  set (w0 := mk_scanner _ se []).
  pose proof (scan_loop_status db bs mx (lines_read heap file bs) r0 w0) as H.
  destruct (scan_loop db bs mx (lines_read heap file bs) r0 w0) as [a | f a];
    simpl in *; (destruct H as [H | H]; [right | left; exact H]);
    rewrite H; unfold r0; destruct file; reflexivity.
Qed.

End Status.

(** [hyperscan] on a constructed session. *)
Lemma hyperscan_constructed heap file db bs bc mx :
  valid_config bc mx ->
  constructs heap (effective_count bc mx) ->
  let cap := effective_count bc mx in
  hyperscan heap file (Some db) bs bc mx
  = match hyperscan_gz heap file (fresh_session heap cap) db bs mx with
    | (Undefined f (r, w), ev) =>
        Undefined f
          (mk_report r (delivered (sess w)) (scanned w)
                     (acquired_by_construction cap ++ ev))
    | (Done (r, w), ev) =>
        cleanup r true (Some cap) (Some true) (Some true)
                (mk_report r (flush (sess w)) (scanned w)
                           (acquired_by_construction cap ++ ev))
    end.
Proof.
  intros Hv (Hs & Hr & Hl & Hsc).
  destruct (effective_count_range bc mx Hv) as (Hcap & _).
  assert (Hbc : bc <= INT_MAX) by apply Hv.
  unfold hyperscan, fresh_session, acquired_by_construction.
  set (cap := effective_count bc mx) in *.
  assert (E1 : to_uint (cap - 1) = cap - 1)
    by (apply to_uint_small; unfold INT_MAX in *; lia).
  assert (E2 : to_int (to_uint (cap - 1 + 1)) = cap).
  { replace (cap - 1 + 1) with cap by lia.
    rewrite to_uint_small by (unfold INT_MAX in *; lia).
    apply to_int_small. unfold INT_MAX in *. lia. }
  rewrite Hs, E1, E2, Hr. simpl negb.
  replace (0 <=? cap) with true by (symmetry; apply Z.leb_le; lia).
  simpl andb. cbv iota. rewrite Hl, Hsc. simpl negb. cbv iota zeta.
  reflexivity.
Qed.

(** The status of [hyperscan], by the first step that fails. *)
Lemma hyperscan_status_cases heap file compiled bs bc mx :
  valid_config bc mx ->
  let cap := effective_count bc mx in
  let r := ret (carried (hyperscan heap file compiled bs bc mx)) in
  (state_ok heap = false /\ r = HYPERSCANNER_STATE_MEM)
  \/ (state_ok heap = true /\ ~ allocates heap cap /\ r = HYPERSCANNER_COMPILE_MEM)
  \/ (allocates heap cap /\ compiled = None /\ r = HYPERSCANNER_DB)
  \/ (allocates heap cap /\ compiled <> None /\ scratch_ok heap = false
      /\ r = HYPERSCANNER_SCRATCH)
  \/ (constructs heap cap /\ compiled <> None /\ file = None
      /\ r = HYPERSCANNER_GZ_OPEN)
  \/ (constructs heap cap /\ compiled <> None /\ file <> None
      /\ (r = 0 \/ r = HYPERSCANNER_SCAN)).
Proof.
  intros Hv. cbv zeta.
  destruct (effective_count_range bc mx Hv) as (Hcap & _).
  assert (Hbc : bc <= INT_MAX) by apply Hv.
  set (cap := effective_count bc mx) in *.
  assert (E1 : to_uint (cap - 1) = cap - 1)
    by (apply to_uint_small; unfold INT_MAX in *; lia).
  assert (E2 : to_int (to_uint (cap - 1 + 1)) = cap).
  { replace (cap - 1 + 1) with cap by lia.
    rewrite to_uint_small by (unfold INT_MAX in *; lia).
    apply to_int_small. unfold INT_MAX in *. lia. }
  destruct (state_ok heap) eqn:Hs.
  2:{ left. split; [reflexivity |]. unfold hyperscan. rewrite Hs. simpl.
      reflexivity. }
  right.
  destruct (results_ok heap) eqn:Hr.
  2:{ left. split; [reflexivity |]. split; [unfold allocates; intuition congruence |].
      unfold hyperscan. rewrite Hs, Hr. simpl. reflexivity. }
  destruct (alloc_lines heap (Z.to_nat cap) 0) as [i |] eqn:Hl.
  { left. split; [reflexivity |]. split; [unfold allocates; intuition congruence |].
    unfold hyperscan. fold cap. rewrite Hs, Hr, E1, E2. simpl negb.
    replace (0 <=? cap) with true by (symmetry; apply Z.leb_le; lia).
    simpl andb. cbv iota. rewrite Hl. apply cleanup_ret. }
  right.
  assert (Hall : allocates heap cap) by (unfold allocates; auto).
  destruct compiled as [db |].
  2:{ left. split; [exact Hall |]. split; [reflexivity |].
      unfold hyperscan. fold cap. rewrite Hs, Hr, E1, E2. simpl negb.
      replace (0 <=? cap) with true by (symmetry; apply Z.leb_le; lia).
      simpl andb. cbv iota. rewrite Hl. reflexivity. }
  right.
  destruct (scratch_ok heap) eqn:Hsc.
  2:{ left. split; [exact Hall |]. split; [discriminate |]. split; [reflexivity |].
      unfold hyperscan. fold cap. rewrite Hs, Hr, E1, E2. simpl negb.
      replace (0 <=? cap) with true by (symmetry; apply Z.leb_le; lia).
      simpl andb. cbv iota. rewrite Hl, Hsc. reflexivity. }
  right.
  assert (Hc : constructs heap cap) by (unfold constructs; auto).
  rewrite (hyperscan_constructed heap file db bs bc mx Hv Hc). cbv zeta. fold cap.
  pose proof (hyperscan_gz_status heap file (fresh_session heap cap) db bs mx) as Hgz.
  cbv zeta in Hgz.
  assert (Hnone : file = None ->
            fst (carried (fst (hyperscan_gz heap file (fresh_session heap cap) db bs mx)))
            = HYPERSCANNER_GZ_OPEN).
  { intros ->. reflexivity. }
  destruct (hyperscan_gz heap file (fresh_session heap cap) db bs mx)
    as [[[r w] | f [r w]] ev]; simpl in Hgz, Hnone; rewrite ?cleanup_ret; simpl ret.
  - destruct file as [content |].
    + right. split; [exact Hc |]. split; [discriminate |]. split; [discriminate |].
      destruct Hgz as [H | H]; [right | left]; exact H.
    + left. split; [exact Hc |]. split; [discriminate |]. split; [reflexivity |].
      apply Hnone. reflexivity.
  - destruct file as [content |].
    + right. split; [exact Hc |]. split; [discriminate |]. split; [discriminate |].
      destruct Hgz as [H | H]; [right | left]; exact H.
    + left. split; [exact Hc |]. split; [discriminate |]. split; [reflexivity |].
      apply Hnone. reflexivity.
Qed.

(** A session returns only if the state block, the results array and
    every slot line were allocated: the paths that set
    [HYPERSCANNER_STATE_MEM] and [HYPERSCANNER_COMPILE_MEM] reach
    [cleanup] over the initialisers of its locals. *)
Lemma returned_allocates heap file compiled bs bc mx rep :
  valid_config bc mx ->
  hyperscan heap file compiled bs bc mx = Done rep ->
  allocates heap (effective_count bc mx).
Proof.
  intros Hv.
  destruct (effective_count_range bc mx Hv) as (Hcap & _).
  assert (Hbc : bc <= INT_MAX) by apply Hv.
  set (cap := effective_count bc mx) in *.
  assert (E1 : to_uint (cap - 1) = cap - 1)
    by (apply to_uint_small; unfold INT_MAX in *; lia).
  assert (E2 : to_int (to_uint (cap - 1 + 1)) = cap).
  { replace (cap - 1 + 1) with cap by lia.
    rewrite to_uint_small by (unfold INT_MAX in *; lia).
    apply to_int_small. unfold INT_MAX in *. lia. }
  unfold hyperscan, allocates. fold cap. rewrite E1, E2.
  destruct (state_ok heap); cbn [negb]; [| discriminate].
  destruct (results_ok heap); cbn [andb negb]; [| discriminate].
  replace (0 <=? cap) with true by (symmetry; apply Z.leb_le; lia).
  cbn [negb].
  destruct (alloc_lines heap (Z.to_nat cap) 0) as [i |]; [discriminate |].
  intros _. repeat split; reflexivity.
Qed.

(** X1.  The status with which [hyperscan] returns names the step that
    failed.  A session returns only if the state block, the results
    array and every slot line were allocated, so
    [HYPERSCANNER_STATE_MEM] and [HYPERSCANNER_COMPILE_MEM] are never
    returned, nor is the [HYPERSCANNER_COMPILE] of [init_hs_db]; it
    returns [HYPERSCANNER_DB] exactly when the patterns do not compile,
    [HYPERSCANNER_SCRATCH] exactly when they do and the scratch cannot
    be allocated, [HYPERSCANNER_GZ_OPEN] exactly when both are built and
    the file cannot be opened, and 0 or [HYPERSCANNER_SCAN] exactly when
    the file was opened. *)
Theorem returned_status_names_the_failure heap file compiled bs bc mx rep :
  valid_config bc mx ->
  hyperscan heap file compiled bs bc mx = Done rep ->
  allocates heap (effective_count bc mx)
  /\ (ret rep = HYPERSCANNER_DB <-> compiled = None)
  /\ (ret rep = HYPERSCANNER_SCRATCH
      <-> compiled <> None /\ scratch_ok heap = false)
  /\ (ret rep = HYPERSCANNER_GZ_OPEN
      <-> compiled <> None /\ scratch_ok heap = true /\ file = None)
  /\ (ret rep = 0 \/ ret rep = HYPERSCANNER_SCAN
      <-> compiled <> None /\ scratch_ok heap = true /\ file <> None)
  /\ ret rep <> HYPERSCANNER_STATE_MEM
  /\ ret rep <> HYPERSCANNER_COMPILE_MEM
  /\ ret rep <> HYPERSCANNER_COMPILE.
Proof.
  intros Hv Hrun.
  pose proof (returned_allocates heap file compiled bs bc mx rep Hv Hrun) as Ha.
  pose proof (hyperscan_status_cases heap file compiled bs bc mx Hv) as H.
  cbv zeta in H. rewrite Hrun in H. cbn [carried] in H.
  split; [exact Ha |].
  set (cap := effective_count bc mx) in *.
  unfold HYPERSCANNER_STATE_MEM, HYPERSCANNER_COMPILE_MEM, HYPERSCANNER_DB,
    HYPERSCANNER_SCRATCH, HYPERSCANNER_GZ_OPEN, HYPERSCANNER_SCAN,
    HYPERSCANNER_COMPILE in *.
  unfold allocates, constructs in *.
  destruct (scratch_ok heap);
  destruct H as [(H1 & H2) | [(H1 & H2 & H3) | [(H1 & H2 & H3)
               | [(H1 & H2 & H3 & H4) | [(H1 & H2 & H3 & H4) | (H1 & H2 & H3 & H4)]]]]];
    intuition (try congruence; try lia).
Qed.

Lemma returned_status_names_the_failure_witness :
  let heap := mk_allocator true true (fun _ => true) false true [] (mk_result 0 0 []) in
  let rep := carried (hyperscan heap (Some three_lines) (Some foo_bar) 100 2 0) in
  allocates heap (effective_count 2 0)
  /\ (ret rep = HYPERSCANNER_DB <-> Some foo_bar = None)
  /\ (ret rep = HYPERSCANNER_SCRATCH
      <-> Some foo_bar <> None /\ scratch_ok heap = false)
  /\ (ret rep = HYPERSCANNER_GZ_OPEN
      <-> Some foo_bar <> None /\ scratch_ok heap = true
          /\ Some three_lines = None)
  /\ (ret rep = 0 \/ ret rep = HYPERSCANNER_SCAN
      <-> Some foo_bar <> None /\ scratch_ok heap = true
          /\ Some three_lines <> None)
  /\ ret rep <> HYPERSCANNER_STATE_MEM
  /\ ret rep <> HYPERSCANNER_COMPILE_MEM
  /\ ret rep <> HYPERSCANNER_COMPILE.
Proof.
  apply (returned_status_names_the_failure
           (mk_allocator true true (fun _ => true) false true [] (mk_result 0 0 []))
           (Some three_lines) (Some foo_bar) 100 2 0).
  - unfold valid_config, INT_MAX, ULLONG_MAX. lia.
  - vm_compute. reflexivity.
Defined.

(** X2.  When a constructed session obtains no line, because the file
    cannot be opened or because the read buffer cannot be allocated, it
    returns without any matcher call and without any batch; the status is
    [HYPERSCANNER_GZ_OPEN] in the first case and 0 in the second, the
    failed allocation of the buffer going unreported. *)
Theorem nothing_read_nothing_delivered heap file db bs bc mx :
  valid_config bc mx ->
  constructs heap (effective_count bc mx) ->
  file = None \/ buf_ok heap = false ->
  exists ev,
    hyperscan heap file (Some db) bs bc mx
    = Done (mk_report
              (match file with Some _ => 0 | None => HYPERSCANNER_GZ_OPEN end)
              [] [] ev).
Proof.
  intros Hv Hc Hno.
  rewrite (hyperscan_constructed heap file db bs bc mx Hv Hc). cbv zeta.
  assert (Hlines : lines_read heap file bs = []).
  { unfold lines_read. destruct Hno as [-> | Hb]; [reflexivity |].
    destruct file; [rewrite Hb |]; reflexivity. }
  unfold hyperscan_gz. rewrite Hlines. simpl scan_loop. cbv iota beta.
  unfold cleanup. destruct file; eexists; reflexivity.
Qed.

Lemma nothing_read_nothing_delivered_witness :
  exists ev,
    hyperscan (mk_allocator true true (fun _ => true) true false [] (mk_result 0 0 []))
              (Some three_lines) (Some foo_bar) 100 2 0
    = Done (mk_report 0 [] [] ev).
Proof.
  apply (nothing_read_nothing_delivered
           (mk_allocator true true (fun _ => true) true false [] (mk_result 0 0 []))
           (Some three_lines) foo_bar 100 2 0).
  - unfold valid_config, INT_MAX, ULLONG_MAX. lia.
  - unfold constructs. simpl. tauto.
  - right. reflexivity.
Defined.

Section EndToEnd.

Lemma tally_prefix db (p l : list (list byte)) :
  p `prefix_of` l -> tally db p <= tally db l.
Proof.
  intros (k & ->). rewrite tally_app. pose proof (tally_nonneg db k). lia.
Qed.

End EndToEnd.

(** X3.  End to end, for a file none of whose reads is made of zero
    bytes only, a Matcher that does not fail and a quota that is not
    reached (none, or larger than the number of occurrences): a
    constructed session returns 0, hands the Matcher the text of every
    read of the file in order (leading zero bytes dropped, cut at the
    next zero byte), and delivers exactly the occurrences reported for
    these texts, numbered by the index of the read. *)
Theorem file_scan_end_to_end heap content db bs bc mx :
  valid_config bc mx ->
  constructs heap (effective_count bc mx) ->
  buf_ok heap = true ->
  (forall s, snd (hs_scan db s) = true) ->
  Forall (fun l => skip_nuls l <> []) (gzlines bs content) ->
  Z.of_nat (length (gzlines bs content)) <= 2 ^ 64 ->
  mx = 0 \/ tally db (map text_of (gzlines bs content)) < mx ->
  exists rep,
    hyperscan heap (Some content) (Some db) bs bc mx = Done rep
    /\ ret rep = 0
    /\ spans rep = map text_of (gzlines bs content)
    /\ records (batches rep) = occurrences db 0 (map text_of (gzlines bs content)).
Proof.
  intros Hv Hc Hbuf Hok Hnz Hlen Hquota.
  assert (Hlines : lines_read heap (Some content) bs = gzlines bs content)
    by (unfold lines_read; rewrite Hbuf; reflexivity).
  destruct (hyperscan_returns heap (Some content) db bs bc mx Hv Hc) as (Hret & Hviews);
    [rewrite Hlines; exact Hnz |].
  rewrite Hlines in Hviews.
  pose proof (hyperscan_session heap (Some content) db bs bc mx Hv Hc) as Hpost.
  unfold session_post in Hpost. rewrite Hlines, Hviews in Hpost.
  pose proof (hyperscan_status_cases heap (Some content) (Some db) bs bc mx Hv) as Hst.
  cbv zeta in Hst.
  destruct (hyperscan heap (Some content) (Some db) bs bc mx) as [rep | f rep];
    [| destruct Hret].
  exists rep. split; [reflexivity |].
  destruct Hpost as (Hpre & _ & _ & _ & _ & Hdone). cbn [carried] in Hpre, Hdone, Hst.
  destruct (Hdone rep eq_refl) as (Hrec & [(_ & p & s & _ & Hfail) | (Hne & _ & Hend)]);
    [rewrite Hok in Hfail; discriminate |].
  assert (Hsp : spans rep = map text_of (gzlines bs content)).
  { destruct Hend as [(Hsp & _) | Hq]; [exact Hsp | exfalso].
    destruct Hquota as [-> | Hlt]; [lia |].
    pose proof (tally_prefix db _ _ Hpre) as Hle.
    pose proof (tally_nonneg db (spans rep)) as H0.
    assert (Hmx : mx <= ULLONG_MAX) by apply Hv. unfold ULLONG_MAX in Hmx.
    rewrite to_ull_small in Hq by lia. lia. }
  split.
  { destruct Hc as (Hs & Hr & Hl & Hsc).
    destruct Hst as [(H & _) | [(_ & H & _) | [(_ & H & _) | [(_ & _ & H & _)
                   | [(_ & _ & H & _) | (_ & _ & _ & [H | H])]]]]];
      try discriminate; try congruence.
    exfalso. apply H. unfold allocates. auto. }
  split; [exact Hsp |].
  rewrite Hrec, Hsp. apply numbered_occurrences; [lia |].
  rewrite length_map. lia.
Qed.

Lemma file_scan_end_to_end_witness :
  exists rep,
    hyperscan (heap_ok []) (Some three_lines) (Some foo_bar) 100 2 0 = Done rep
    /\ ret rep = 0
    /\ spans rep = map text_of (gzlines 100 three_lines)
    /\ records (batches rep)
       = occurrences foo_bar 0 (map text_of (gzlines 100 three_lines)).
Proof.
  apply (file_scan_end_to_end (heap_ok []) three_lines foo_bar 100 2 0).
  - unfold valid_config, INT_MAX, ULLONG_MAX. lia.
  - unfold constructs. simpl. tauto.
  - reflexivity.
  - intros s. reflexivity.
  - vm_compute. repeat constructor; discriminate.
  - vm_compute. discriminate.
  - left. reflexivity.
Defined.

Section SpanSafety.

Variable buffer_size : Z.

Lemma until_nul_spec (l : list byte) :
  forall s, until_nul l = Some s ->
  (length s < length l)%nat /\ Forall (fun x => is_nul x = false) s.
Proof.
  induction l as [| c l IH]; intros s H; simpl in H; [discriminate |].
  destruct (is_nul c) eqn:Hc.
  - injection H as <-. simpl. split; [lia | constructor].
  - destruct (until_nul l) as [s' |]; [| discriminate].
    injection H as <-. destruct (IH s' eq_refl) as (Hlen & Hall).
    simpl. split; [lia | constructor; assumption].
Qed.

Lemma length_store_line (b l : list byte) :
  (length l < length b)%nat -> length (store_line b l) = length b.
Proof.
  intros H. unfold store_line. rewrite length_app. simpl.
  rewrite length_drop. lia.
Qed.

(** In a buffer of [buffer_size] bytes every span is shorter than the
    buffer and free of zero bytes. *)
Lemma views_safe (lines : list (list byte)) :
  forall b,
  length b = Z.to_nat buffer_size ->
  Forall (fun l => Z.of_nat (length l) < buffer_size) lines ->
  Forall (fun s => Z.of_nat (length s) < buffer_size
                   /\ Forall (fun x => is_nul x = false) s)
         (views buffer_size b lines).
Proof.
  induction lines as [| l rest IH]; intros b Hb Hall; simpl; [constructor |].
  apply Forall_cons in Hall. destruct Hall as (Hl & Hrest).
  assert (Hlen : length (store_line b l) = length b)
    by (apply length_store_line; lia).
  destruct (view buffer_size (store_line b l)) as [span |] eqn:Hview;
    [| constructor].
  constructor; [| apply IH; [lia | exact Hrest]].
  unfold view, c_string in Hview. apply until_nul_spec in Hview.
  destruct Hview as (Hlt & Hnz). split; [| exact Hnz].
  rewrite length_drop in Hlt. lia.
Qed.

Lemma numbered_line db (spans : list (list byte)) :
  forall n r, In r (numbered db n spans) -> In (r_line r) spans.
Proof.
  induction spans as [| s rest IH]; intros n r; simpl; [tauto |].
  rewrite in_app_iff. intros [H | H].
  - unfold occurrences_of in H. apply in_map_iff in H.
    destruct H as (i & <- & _). left. reflexivity.
  - right. apply (IH _ _ H).
Qed.

End SpanSafety.

(** The spans a session scanned, as long as each scan stayed inside the
    read buffer, are shorter than the buffer and free of zero bytes, and
    so are the texts of its records. *)
Lemma carried_spans_bounded heap file compiled bs bc mx :
  valid_config bc mx ->
  let rep := carried (hyperscan heap file compiled bs bc mx) in
  Forall (fun s => Z.of_nat (length s) < bs
                   /\ Forall (fun x => is_nul x = false) s) (spans rep)
  /\ Forall (fun r => Z.of_nat (length (r_line r)) < bs
                      /\ Forall (fun x => is_nul x = false) (r_line r))
            (records (batches rep)).
Proof.
  intros Hv. cbv zeta.
  destruct (hyperscan_cases heap file compiled bs bc mx Hv)
    as [(Hb & Hs) | (db & _ & _ & Hpost)].
  { rewrite Hb, Hs. split; constructor. }
  destruct Hpost as (Hpre & _ & _ & Hrec & _).
  assert (Hshort : Forall (fun l => Z.of_nat (length l) < bs)
                          (lines_read heap file bs)).
  { unfold lines_read. destruct file as [content |]; [| constructor].
    destruct (buf_ok heap); [| constructor].
    eapply Forall_impl; [apply gzlines_short |]. simpl. tauto. }
  assert (Hbuf : length (malloc_bytes heap (Z.to_nat bs)) = Z.to_nat bs).
  { unfold malloc_bytes. rewrite length_take, length_app, length_replicate. lia. }
  pose proof (views_safe bs (lines_read heap file bs) _ Hbuf Hshort) as Hsafe.
  assert (Hspans : Forall (fun s => Z.of_nat (length s) < bs
                                    /\ Forall (fun x => is_nul x = false) s)
                          (spans (carried (hyperscan heap file compiled bs bc mx)))).
  { destruct Hpre as (k & Hk). rewrite Hk in Hsafe.
    apply Forall_app in Hsafe. apply Hsafe. }
  split; [exact Hspans |].
  apply Forall_forall. intros r Hr. apply list_elem_of_In in Hr.
  destruct Hrec as (k & Hk).
  assert (Hin : In r (numbered db 0
                        (spans (carried (hyperscan heap file compiled bs bc mx)))))
    by (rewrite Hk; apply in_app_iff; left; exact Hr).
  apply numbered_line in Hin.
  rewrite Forall_forall in Hspans. apply Hspans, list_elem_of_In. exact Hin.
Qed.


(** X4.  A constructed session over a file none of whose reads is made
    of zero bytes only is safe, whatever the patterns, the Matcher's
    verdicts and the quota: it returns, no step of it leaving defined
    behaviour, and every span handed to the Matcher, and so the text of
    every record delivered, is free of zero bytes and shorter than
    [buffer_size], so that the [strcpy] of the callback fits the
    [buffer_size] bytes of a slot, terminator included. *)
Theorem session_without_all_zero_reads_is_safe heap file db bs bc mx :
  valid_config bc mx ->
  constructs heap (effective_count bc mx) ->
  Forall (fun l => skip_nuls l <> []) (lines_read heap file bs) ->
  exists rep,
    hyperscan heap file (Some db) bs bc mx = Done rep
    /\ Forall (fun s => Z.of_nat (length s) < bs
                        /\ Forall (fun x => is_nul x = false) s) (spans rep)
    /\ Forall (fun r => Z.of_nat (length (r_line r)) < bs
                        /\ Forall (fun x => is_nul x = false) (r_line r))
              (records (batches rep)).
Proof.
  intros Hv Hc Hnz.
  destruct (hyperscan_returns heap file db bs bc mx Hv Hc Hnz) as (Hret & _).
  pose proof (carried_spans_bounded heap file (Some db) bs bc mx Hv) as Hb.
  cbv zeta in Hb.
  destruct (hyperscan heap file (Some db) bs bc mx) as [rep | f rep];
    [| destruct Hret].
  exists rep. split; [reflexivity | exact Hb].
Qed.

Lemma session_without_all_zero_reads_is_safe_witness :
  exists rep,
    hyperscan (heap_ok (replicate 100 x01)) (Some three_lines)
              (Some foo_fails_on_bar) 100 2 1
    = Done rep
    /\ Forall (fun s => Z.of_nat (length s) < 100
                        /\ Forall (fun x => is_nul x = false) s) (spans rep)
    /\ Forall (fun r => Z.of_nat (length (r_line r)) < 100
                        /\ Forall (fun x => is_nul x = false) (r_line r))
              (records (batches rep)).
Proof.
  apply (session_without_all_zero_reads_is_safe
           (heap_ok (replicate 100 x01)) (Some three_lines)
           foo_fails_on_bar 100 2 1).
  - unfold valid_config, INT_MAX, ULLONG_MAX. lia.
  - repeat split; reflexivity.
  - vm_compute. repeat constructor; discriminate.
Defined.



Section ZeroBytes.

Variable buffer_size : Z.

Lemma first_nonzero_spec (r : list byte) :
  forall i,
  first_nonzero r i
  = match skip_nuls r with
    | [] => None
    | _ :: _ => Some (i + leading_nuls r)%nat
    end.
Proof.
  induction r as [| c r IH]; intros i; simpl; [reflexivity |].
  destruct (is_nul c).
  - rewrite IH. destruct (skip_nuls r); [reflexivity | f_equal; lia].
  - f_equal. lia.
Qed.

Lemma before_nul_app (a r : list byte) :
  Forall (fun x => is_nul x = false) a -> before_nul (a ++ x00 :: r) = a.
Proof.
  induction a as [| c a IH]; intros Ha; simpl; [reflexivity |].
  apply Forall_cons in Ha. destruct Ha as (Hc & Ha).
  rewrite Hc, IH by exact Ha. reflexivity.
Qed.

End ZeroBytes.

(** X5.  A read made of zero bytes only is not scanned as such: the
    strip loop runs over the whole buffer, so the span handed to the
    Matcher is the string that starts at the first non-zero byte the
    buffer still holds beyond the read and its terminator, left there by
    earlier reads or by the allocator; it is empty only when the rest of
    the buffer holds zero bytes only. *)
Theorem all_zero_read_scans_the_rest_of_the_buffer (b : list byte) bs (k : nat) :
  (0 < k)%nat ->
  Z.of_nat k < bs ->
  length b = Z.to_nat bs ->
  view bs (store_line b (replicate k x00))
  = match skip_nuls (drop (S k) b) with
    | [] => Some []
    | c :: rest => until_nul (c :: rest)
    end.
Proof.
  intros Hk Hlt Hb. unfold view, store_line. rewrite length_replicate.
  set (r := drop (S k) b).
  assert (Hr : length r = (length b - S k)%nat) by (unfold r; apply length_drop).
  destruct k as [| k']; [lia |]. simpl replicate. simpl app.
  unfold line_start. change (is_nul x00) with true. cbv iota.
  set (rest := replicate k' x00 ++ x00 :: r).
  assert (Hrest : length rest = Z.to_nat (bs - 1)).
  { unfold rest. rewrite length_app, length_replicate. simpl. lia. }
  rewrite take_ge by lia.
  rewrite first_nonzero_spec.
  assert (Hskip : skip_nuls rest = skip_nuls r)
    by (unfold rest; rewrite skip_nuls_replicate; reflexivity).
  rewrite Hskip.
  destruct (skip_nuls r) as [| c tl] eqn:Hs.
  - reflexivity.
  - unfold c_string. simpl drop. rewrite drop_leading_nuls, Hskip. reflexivity.
Qed.

Lemma all_zero_read_scans_the_rest_of_the_buffer_witness :
  view 100 (store_line (buf scanner_a) (replicate 3 x00))
  = match skip_nuls (drop 4 (buf scanner_a)) with
    | [] => Some []
    | c :: rest => until_nul (c :: rest)
    end.
Proof.
  apply (all_zero_read_scans_the_rest_of_the_buffer (buf scanner_a) 100 3).
  - lia.
  - lia.
  - reflexivity.
Defined.

(** X6.  Bytes that follow a zero byte inside a line are never scanned:
    for a read made of leading zero bytes, a text free of zero bytes,
    one zero byte and anything after it, the span handed to the Matcher
    is the text alone, whatever the buffer held. *)
Theorem bytes_after_a_zero_byte_are_not_scanned
    (b : list byte) bs (k : nat) (c : byte) (t rest : list byte) :
  is_nul c = false ->
  Forall (fun x => is_nul x = false) t ->
  Z.of_nat (k + length (c :: t) + 1 + length rest) < bs ->
  view bs (store_line b (replicate k x00 ++ (c :: t) ++ x00 :: rest))
  = Some (c :: t).
Proof.
  intros Hc Ht Hlen.
  assert (Hskip : skip_nuls (replicate k x00 ++ (c :: t) ++ x00 :: rest)
                  = (c :: t) ++ x00 :: rest).
  { rewrite skip_nuls_replicate. simpl. rewrite Hc. reflexivity. }
  rewrite view_of_line.
  - unfold text_of. rewrite Hskip. rewrite before_nul_app; [reflexivity |].
    constructor; assumption.
  - rewrite Hskip. discriminate.
  - rewrite !length_app, length_replicate. simpl in *. lia.
Qed.

Lemma bytes_after_a_zero_byte_are_not_scanned_witness :
  view 100 (store_line (buf scanner_b)
              (replicate 1 x00 ++ ("a"%byte :: bytes "b") ++ x00 :: bytes "foo"))
  = Some ("a"%byte :: bytes "b").
Proof.
  apply (bytes_after_a_zero_byte_are_not_scanned (buf scanner_b) 100 1
           "a"%byte (bytes "b") (bytes "foo")).
  - reflexivity.
  - repeat constructor.
  - simpl. lia.
Defined.

Section Balance.

Lemma nodup_map_seq (f : nat -> res_event) (n : nat) :
  (forall i j, f i = f j -> i = j) ->
  forall a, NoDup (map f (seq a n)).
Proof.
  intros Hinj. induction n as [| n IH]; intros a; simpl; constructor.
  - rewrite list_elem_of_In. intros H. apply in_map_iff in H.
    destruct H as (j & Hj & Hin). apply Hinj in Hj. subst j.
    apply in_seq in Hin. lia.
  - apply IH.
Qed.

Lemma hyperscan_gz_done heap file se db bs mx a ev :
  hyperscan_gz heap file se db bs mx = (Done a, ev) ->
  ev = (if match file with Some _ => true | None => false end
        then [Acquire RFile] else [])
       ++ (if buf_ok heap then [Acquire RBuf] else [])
       ++ (if match file with Some _ => true | None => false end
           then [Release RFile] else [])
       ++ (if buf_ok heap then [Release RBuf] else []).
Proof.
  unfold hyperscan_gz.
  destruct (scan_loop db bs mx _ _ _); intros H; [| discriminate].
  injection H as _ <-. reflexivity.
Qed.

(** Cases of a membership in a list built from conses, appends, maps
    and conditionals. *)
Ltac split_in H :=
  repeat match type of H with
  | In _ (_ ++ _) => apply in_app_or in H; destruct H as [H | H]
  | In _ (map _ _) => apply in_map_iff in H; destruct H as (? & H & ?)
  | In _ (if ?c then _ else _) => destruct c
  | In _ (_ :: _) => destruct H as [H | H]
  | In _ [] => destruct H
  | _ \/ _ => destruct H as [H | H]
  | False => destruct H
  end.

(** Proves that a list of events built from conses, appends and maps of
    constructors over [seq] has no duplicates. *)
Ltac no_dup :=
  repeat first
    [ apply NoDup_nil_2
    | apply nodup_map_seq; intros ? ? Heq; injection Heq; auto
    | apply NoDup_cons_2;
      [ rewrite list_elem_of_In; let H := fresh "H" in
        intros H; split_in H; discriminate |]
    | apply NoDup_app; split; [| split;
        [ let x := fresh "x" in let H1 := fresh "H" in let H2 := fresh "H" in
          intros x H1 H2; apply list_elem_of_In in H1; apply list_elem_of_In in H2;
          split_in H1; subst; split_in H2; discriminate |]] ].

Lemma returned_resources heap file compiled bs bc mx rep :
  hyperscan heap file compiled bs bc mx = Done rep ->
  exists (n : nat) (d s g : bool),
    let opened := match file with Some _ => true | None => false end in
    resources rep
    = ([Acquire RState; Acquire RResults]
       ++ map (fun k => Acquire (RLine k)) (seq 0 n))
      ++ (if d then [Acquire RDatabase] else [])
      ++ (if s then [Acquire RScratch] else [])
      ++ (if g && opened then [Acquire RFile] else [])
      ++ (if g && buf_ok heap then [Acquire RBuf] else [])
      ++ (if g && opened then [Release RFile] else [])
      ++ (if g && buf_ok heap then [Release RBuf] else [])
      ++ map (fun i => Release (RLine i)) (seq 0 n)
      ++ [Release RState]
      ++ (if s then [Release RScratch] else [])
      ++ (if d then [Release RDatabase] else []).
Proof.
  unfold hyperscan. intros H.
  destruct (state_ok heap); simpl negb in H; cbv iota in H; [| discriminate].
  destruct (negb (results_ok heap && _)); [discriminate |].
  destruct (alloc_lines heap _ 0); [discriminate |].
  set (n := Z.to_nat (to_int (to_uint (to_uint (effective_count bc mx - 1) + 1)))) in *.
  destruct compiled as [db |].
  2:{ exists n, false, false, false. injection H as <-. cbv zeta. simpl.
      rewrite ?app_nil_r, <- ?app_assoc. reflexivity. }
  destruct (scratch_ok heap); simpl negb in H; cbv iota in H.
  2:{ exists n, true, false, false. injection H as <-. cbv zeta. simpl.
      rewrite ?app_nil_r, <- ?app_assoc. reflexivity. }
  destruct (hyperscan_gz heap file _ db bs mx) as [[[r w] | f [r w]] ev] eqn:Hgz;
    [| discriminate].
  apply hyperscan_gz_done in Hgz. subst ev.
  exists n, true, true, true. injection H as <-. cbv zeta. simpl.
  rewrite ?app_nil_r, <- ?app_assoc. reflexivity.
Qed.

(** Finds an event in such a list. *)
Ltac find_in :=
  match goal with
  | |- In _ (_ ++ _) => apply in_or_app; first [left; find_in | right; find_in]
  | |- In _ (_ :: _) => first [left; reflexivity | right; find_in]
  | |- In _ (map _ _) =>
      apply in_map_iff; eexists; split; [reflexivity | eassumption]
  end.

Lemma canonical_trace_balanced (n : nat) (d s f b : bool) :
  let evs :=
    ([Acquire RState; Acquire RResults]
     ++ map (fun k => Acquire (RLine k)) (seq 0 n))
    ++ (if d then [Acquire RDatabase] else [])
    ++ (if s then [Acquire RScratch] else [])
    ++ (if f then [Acquire RFile] else [])
    ++ (if b then [Acquire RBuf] else [])
    ++ (if f then [Release RFile] else [])
    ++ (if b then [Release RBuf] else [])
    ++ map (fun i => Release (RLine i)) (seq 0 n)
    ++ [Release RState]
    ++ (if s then [Release RScratch] else [])
    ++ (if d then [Release RDatabase] else []) in
  NoDup evs
  /\ forall r, In (Release r) evs <-> In (Acquire r) evs /\ r <> RResults.
Proof.
  cbv zeta. split.
  - destruct d, s, f, b; simpl; no_dup.
  - intros r. split.
    + intros H. split_in H; try discriminate;
        injection H as <-; (split; [find_in | discriminate]).
    + intros (H & Hr). split_in H; try discriminate;
        injection H as <-; try congruence; find_in.
Qed.

End Balance.

(** X7.  When [hyperscan] returns, whatever the status, no resource was
    acquired or released twice, and the resources released are exactly
    those acquired other than the results array: the state block, every
    slot line, the database, the scratch, the file and the read
    buffer. *)
Theorem returned_session_releases_what_it_acquired
    heap file compiled bs bc mx rep :
  hyperscan heap file compiled bs bc mx = Done rep ->
  NoDup (resources rep)
  /\ forall r, In (Release r) (resources rep)
               <-> In (Acquire r) (resources rep) /\ r <> RResults.
Proof.
  intros H.
  destruct (returned_resources heap file compiled bs bc mx rep H)
    as (n & d & s & g & E).
  cbv zeta in E. rewrite E. apply canonical_trace_balanced.
Qed.

Lemma returned_session_releases_what_it_acquired_witness :
  let rep := carried (hyperscan (heap_ok []) (Some three_lines) None 100 2 0) in
  NoDup (resources rep)
  /\ forall r, In (Release r) (resources rep)
               <-> In (Acquire r) (resources rep) /\ r <> RResults.
Proof.
  apply (returned_session_releases_what_it_acquired
           (heap_ok []) (Some three_lines) None 100 2 0).
  reflexivity.
Defined.

(** X8.  [check_patterns] answers for [hyperscan]: when the allocations
    of a session succeed, [check_patterns] returns [HYPERSCANNER_DB] for
    exactly the patterns on which [hyperscan] ends with
    [HYPERSCANNER_DB], and 0 for all others; the database it compiled is
    freed before it returns. *)
Theorem check_patterns_agrees_with_hyperscan heap file compiled bs bc mx :
  valid_config bc mx ->
  allocates heap (effective_count bc mx) ->
  (fst (check_patterns compiled) = HYPERSCANNER_DB
   <-> ret (carried (hyperscan heap file compiled bs bc mx)) = HYPERSCANNER_DB)
  /\ (fst (check_patterns compiled) = 0
      <-> ret (carried (hyperscan heap file compiled bs bc mx)) <> HYPERSCANNER_DB)
  /\ (forall r, In (Release r) (snd (check_patterns compiled))
                <-> In (Acquire r) (snd (check_patterns compiled))).
Proof.
  intros Hv Hall.
  pose proof (hyperscan_status_cases heap file compiled bs bc mx Hv) as H.
  cbv zeta in H.
  set (r := ret (carried (hyperscan heap file compiled bs bc mx))) in *.
  assert (Hr : r = HYPERSCANNER_DB <-> compiled = None).
  { unfold HYPERSCANNER_STATE_MEM, HYPERSCANNER_COMPILE_MEM, HYPERSCANNER_DB,
      HYPERSCANNER_SCRATCH, HYPERSCANNER_GZ_OPEN, HYPERSCANNER_SCAN in *.
    pose proof Hall as (Hs & _).
    destruct H as [(H1 & H2) | [(H1 & H2 & H3) | [(H1 & H2 & H3)
                 | [(H1 & H2 & H3 & H4) | [(H1 & H2 & H3 & H4) | (H1 & H2 & H3 & H4)]]]]];
      split; intros; try congruence; try lia; try tauto;
      try (destruct H4; lia). }
  unfold check_patterns, init_hs_db.
  destruct compiled as [db |]; simpl.
  - assert (Hne : r <> HYPERSCANNER_DB) by (rewrite Hr; discriminate).
    split; [split; [discriminate | tauto] |].
    split; [tauto |].
    intros x. split; intros [E | [E | []]]; try discriminate;
      injection E as <-; simpl; auto.
  - assert (He : r = HYPERSCANNER_DB) by (apply Hr; reflexivity).
    split; [tauto |]. split; [split; [discriminate | tauto] |].
    intros x. tauto.
Qed.

Lemma check_patterns_agrees_with_hyperscan_witness :
  (fst (check_patterns None) = HYPERSCANNER_DB
   <-> ret (carried (hyperscan (heap_ok []) (Some three_lines) None 100 2 0))
       = HYPERSCANNER_DB)
  /\ (fst (check_patterns None) = 0
      <-> ret (carried (hyperscan (heap_ok []) (Some three_lines) None 100 2 0))
          <> HYPERSCANNER_DB)
  /\ (forall r, In (Release r) (snd (check_patterns None))
                <-> In (Acquire r) (snd (check_patterns None))).
Proof.
  apply (check_patterns_agrees_with_hyperscan
           (heap_ok []) (Some three_lines) None 100 2 0).
  - unfold valid_config, INT_MAX, ULLONG_MAX. lia.
  - unfold allocates. simpl. tauto.
Defined.

(** * The library without batching *)

Section PyInit.

Variable expression_flags : list Z.

Lemma fill_spec (n : nat) :
  forall id ids fl,
  length ids = (id + n)%nat ->
  length fl = (id + n)%nat ->
  (id + n <= length expression_flags)%nat ->
  Py.fill expression_flags n id ids fl
  = inl (take id ids ++ map Z.of_nat (seq id n),
         take id fl ++ take n (drop id expression_flags)).
Proof.
  induction n as [| n IH]; intros id ids fl Hids Hfl Hlen; simpl.
  - rewrite !app_nil_r, !take_ge by lia. reflexivity.
  - destruct (expression_flags !! id) as [v |] eqn:Hv.
    2:{ apply lookup_ge_None in Hv. lia. }
    rewrite IH by (rewrite ?length_insert; lia).
    f_equal. f_equal.
    + rewrite (take_S_r _ id (Z.of_nat id))
        by (apply list_lookup_insert_eq; lia).
      rewrite take_insert_ge by lia. rewrite <- app_assoc. reflexivity.
    + rewrite (take_S_r _ id v) by (apply list_lookup_insert_eq; lia).
      rewrite take_insert_ge by lia. rewrite <- app_assoc. simpl.
      rewrite (drop_S _ v id Hv). reflexivity.
Qed.

End PyInit.

(** X9.  [init_hs_db] of the library without batching numbers the
    patterns by position: when both arrays are allocated and the caller
    supplies at least [elements] flags, the compiler is given the ids
    0, 1, ..., [elements] - 1 and the first [elements] flags; the status
    is 0 with the database, or [HYPERSCANNER_COMPILE] without; and both
    arrays, with the compile error if any, are freed. *)
Theorem init_hs_db_numbers_the_patterns
    heap compile expressions expression_flags elements :
  0 <= elements <= Z.of_nat (length expression_flags) ->
  Py.ids_ok heap = true ->
  Py.flags_ok heap = true ->
  let n := Z.to_nat elements in
  let db := compile expressions (take n expression_flags)
                    (map Z.of_nat (seq 0 n)) elements in
  Py.init_hs_db heap compile expressions expression_flags elements
  = Py.Done
      (db,
       match db with Some _ => 0 | None => HYPERSCANNER_COMPILE end,
       [Py.Acquire Py.RIds; Py.Acquire Py.RFlags]
       ++ match db with
          | Some _ => []
          | None => [Py.Acquire Py.RError; Py.Release Py.RError]
          end
       ++ [Py.Release Py.RFlags; Py.Release Py.RIds]).
Proof.
  intros Hel Hids Hfl. cbv zeta. unfold Py.init_hs_db.
  rewrite Hids, Hfl.
  replace (0 <=? elements) with true by (symmetry; apply Z.leb_le; lia).
  simpl andb. simpl negb. cbv iota.
  rewrite fill_spec by (rewrite ?length_replicate; lia).
  simpl take. simpl app. rewrite drop_0.
  destruct (compile expressions _ _ elements); reflexivity.
Qed.

Lemma init_hs_db_numbers_the_patterns_witness :
  let n := Z.to_nat 2 in
  let db := literal_compiler ["foo"%string; "bar"%string] (take n [14; 14])
                             (map Z.of_nat (seq 0 n)) 2 in
  Py.init_hs_db py_heap_ok literal_compiler ["foo"%string; "bar"%string] [14; 14] 2
  = Py.Done
      (db,
       match db with Some _ => 0 | None => HYPERSCANNER_COMPILE end,
       [Py.Acquire Py.RIds; Py.Acquire Py.RFlags]
       ++ match db with
          | Some _ => []
          | None => [Py.Acquire Py.RError; Py.Release Py.RError]
          end
       ++ [Py.Release Py.RFlags; Py.Release Py.RIds]).
Proof.
  apply (init_hs_db_numbers_the_patterns py_heap_ok literal_compiler
           ["foo"%string; "bar"%string] [14; 14] 2).
  - simpl. lia.
  - reflexivity.
  - reflexivity.
Defined.

Section PyLoop.

Variable db : database.

Lemma py_run_callbacks b (off : nat) (text : list byte) (ids : list Z) :
  forall se,
  Py.line (Py.state se) = Some off ->
  c_string b off = Some text ->
  Py.run_callbacks b ids se
  = Py.Done (Py.mk_session (Py.state se)
               (Py.events se
                ++ map (fun i => Py.mk_event (Py.lineNumber (Py.state se)) i text) ids)).
Proof.
  induction ids as [| i ids IH]; intros se Hl Hs; simpl.
  - rewrite app_nil_r. destruct se. reflexivity.
  - unfold Py.hs_callback. rewrite Hl. simpl. rewrite Hs.
    rewrite IH by assumption. simpl. rewrite <- app_assoc. reflexivity.
Qed.

Lemma to_event_occurrences_of n text :
  map to_event (occurrences_of db n text)
  = map (fun i => Py.mk_event n i text) (fst (hs_scan db text)).
Proof. unfold occurrences_of. rewrite map_map. reflexivity. Qed.

Lemma c_string_store_line (b l : list byte) :
  c_string (store_line b l) O = Some (before_nul l).
Proof. unfold c_string, store_line. simpl drop. apply until_nul_app. Qed.

(** The loop of the library without batching: it always runs to its end,
    scanning the lines up to the first failure and reporting every
    occurrence. *)
Lemma py_scan_loop (lines : list (list byte)) :
  forall r w,
  let texts := scanned_texts db (map before_nul lines) in
  exists w',
    Py.scan_loop db lines r w
    = Py.Done (if forallb (fun t => snd (hs_scan db t)) texts
               then r else HYPERSCANNER_SCAN, w')
    /\ Py.events (Py.sess w')
       = Py.events (Py.sess w)
         ++ map to_event (numbered db (Py.lineNumber (Py.state (Py.sess w))) texts)
    /\ Py.scanned w' = Py.scanned w ++ texts.
Proof.
  induction lines as [| l rest IH]; intros r w; cbv zeta.
  - exists w. simpl. rewrite !app_nil_r. repeat split; reflexivity.
  - cbn [Py.scan_loop map scanned_texts forallb numbered].
    rewrite c_string_store_line.
    destruct (hs_scan db (before_nul l)) as [ids ok] eqn:Hscan.
    rewrite (py_run_callbacks _ O (before_nul l))
      by (try reflexivity; apply c_string_store_line).
    cbn [fst snd]. destruct ok; cbn [negb andb].
    + match goal with
      | |- context [Py.scan_loop db rest r ?w1] =>
          destruct (IH r w1) as (w' & Hrun & Hev & Hsc)
      end.
      cbv zeta in Hrun. exists w'. rewrite Hrun.
      split; [reflexivity |]. cbn [Py.sess Py.scanned Py.events Py.next_line
                                  Py.state Py.lineNumber Py.set_line] in Hev, Hsc.
      split.
      * rewrite Hev, map_app, to_event_occurrences_of, Hscan. cbn [fst].
        rewrite <- app_assoc. reflexivity.
      * rewrite Hsc, <- app_assoc. reflexivity.
    + eexists. split; [reflexivity |].
      cbn [Py.sess Py.scanned Py.events Py.state Py.lineNumber Py.set_line numbered].
      rewrite app_nil_r, to_event_occurrences_of, Hscan. split; reflexivity.
Qed.

End PyLoop.

Section PySession.

Lemma length_scanned_texts db (texts : list (list byte)) :
  (length (scanned_texts db texts) <= length texts)%nat.
Proof.
  induction texts as [| t rest IH]; simpl; [lia |].
  destruct (snd (hs_scan db t)); simpl; lia.
Qed.

(** A session of the library without batching, once the database is
    compiled and the scratch allocated. *)
Lemma py_hyperscan_spec heap compile file patterns pattern_flags elements bufSize db ev :
  Py.state_ok heap = true ->
  Py.scratch_ok heap = true ->
  Py.init_hs_db heap compile patterns pattern_flags (to_int elements)
  = Py.Done (Some db, 0, ev) ->
  let texts := scanned_texts db (map before_nul (Py.lines_read heap file bufSize)) in
  exists rep,
    Py.hyperscan heap compile file patterns pattern_flags elements bufSize
    = Py.Done rep
    /\ Py.reported rep = map to_event (numbered db 0 texts)
    /\ Py.spans rep = texts
    /\ Py.ret rep
       = if forallb (fun t => snd (hs_scan db t)) texts
         then match file with Some _ => 0 | None => HYPERSCANNER_GZ_OPEN end
         else HYPERSCANNER_SCAN.
Proof.
  intros Hs Hsc Hinit. cbv zeta.
  unfold Py.hyperscan. rewrite Hs, Hinit, Hsc. cbn [negb].
  unfold Py.hyperscan_gz.
  match goal with
  | |- context [Py.scan_loop db ?ls ?r ?w] =>
      destruct (py_scan_loop db ls r w) as (w' & Hrun & Hev & Hscn)
  end.
  cbv zeta in Hrun. rewrite Hrun. unfold Py.cleanup.
  eexists. split; [reflexivity |]. cbn [Py.reported Py.spans Py.ret].
  split; [exact Hev |]. split; [exact Hscn |].
  destruct file; reflexivity.
Qed.

End PySession.

(** X10.  A session of the library without batching whose database
    compiles and whose allocations succeed always returns.  It scans the
    reads of the file in order, each up to its first zero byte, until
    the Matcher fails on one; it invokes the caller's callback once per
    occurrence, in order, with the index of the read, the id and the
    text scanned; and its status is [HYPERSCANNER_SCAN] if a scan
    failed, else 0, or [HYPERSCANNER_GZ_OPEN] when the file could not be
    opened. *)
Theorem unbatched_session_reports_every_occurrence
    heap compile file patterns pattern_flags elements bufSize db ev :
  Py.state_ok heap = true ->
  Py.scratch_ok heap = true ->
  Py.init_hs_db heap compile patterns pattern_flags (to_int elements)
  = Py.Done (Some db, 0, ev) ->
  Z.of_nat (length (Py.lines_read heap file bufSize)) <= 2 ^ 64 ->
  let texts := scanned_texts db (map before_nul (Py.lines_read heap file bufSize)) in
  exists rep,
    Py.hyperscan heap compile file patterns pattern_flags elements bufSize
    = Py.Done rep
    /\ Py.reported rep = map to_event (occurrences db 0 texts)
    /\ Py.spans rep = texts
    /\ Py.ret rep
       = if forallb (fun t => snd (hs_scan db t)) texts
         then match file with Some _ => 0 | None => HYPERSCANNER_GZ_OPEN end
         else HYPERSCANNER_SCAN.
Proof.
  intros Hs Hsc Hinit Hlen. cbv zeta.
  destruct (py_hyperscan_spec heap compile file patterns pattern_flags elements
              bufSize db ev Hs Hsc Hinit) as (rep & Hrun & Hrep & Hsp & Hret).
  exists rep. split; [exact Hrun |].
  split; [| split; assumption].
  rewrite Hrep. f_equal. apply numbered_occurrences; [lia |].
  pose proof (length_scanned_texts db
                (map before_nul (Py.lines_read heap file bufSize))) as Hle.
  rewrite length_map in Hle. lia.
Qed.

Lemma unbatched_session_reports_every_occurrence_witness :
  let texts :=
    scanned_texts foo_fails_on_bar
      (map before_nul (Py.lines_read py_heap_ok (Some three_lines) 100)) in
  exists rep,
    Py.hyperscan py_heap_ok (fun _ _ _ _ => Some foo_fails_on_bar)
                 (Some three_lines) ["foo"%string] [14] 1 100
    = Py.Done rep
    /\ Py.reported rep = map to_event (occurrences foo_fails_on_bar 0 texts)
    /\ Py.spans rep = texts
    /\ Py.ret rep
       = if forallb (fun t => snd (hs_scan foo_fails_on_bar t)) texts
         then 0 else HYPERSCANNER_SCAN.
Proof.
  apply (unbatched_session_reports_every_occurrence py_heap_ok
           (fun _ _ _ _ => Some foo_fails_on_bar) (Some three_lines)
           ["foo"%string] [14] 1 100 foo_fails_on_bar
           [Py.Acquire Py.RIds; Py.Acquire Py.RFlags;
            Py.Release Py.RFlags; Py.Release Py.RIds]).
  - reflexivity.
  - reflexivity.
  - reflexivity.
  - vm_compute. discriminate.
Defined.

Section Versions.

Variable db : database.

(** Without a quota, the spans of a session that returned are the texts
    up to and including the first on which the Matcher fails. *)
Lemma scanned_texts_char (p : list (list byte)) :
  forall all mc,
  p `prefix_of` all ->
  steady db 0 mc p ->
  (exists q s, p = q ++ [s] /\ snd (hs_scan db s) = false)
  \/ (Forall (fun s => snd (hs_scan db s) = true) p /\ p = all) ->
  p = scanned_texts db all.
Proof.
  induction p as [| s r IH]; intros all mc Hpre Hst Hend.
  - destruct Hend as [(q & s & Hq & _) | (_ & <-)]; [| reflexivity].
    destruct q; discriminate.
  - destruct Hpre as (rest & ->). simpl app. simpl scanned_texts.
    destruct r as [| s2 r'].
    + destruct Hend as [(q & s' & Hq & Hfail) | (Hok & Hall)].
      * destruct q as [| a q]; [| destruct q; discriminate].
        injection Hq as ->. rewrite Hfail. reflexivity.
      * apply Forall_cons in Hok. destruct Hok as (Hok & _).
        rewrite Hok. simpl in Hall. injection Hall as <-. reflexivity.
    + simpl in Hst. destruct Hst as (Hgo & Hst).
      unfold goes_on in Hgo. apply andb_true_iff in Hgo.
      destruct Hgo as (Hok & _). rewrite Hok. f_equal.
      apply (IH _ _ (ltac:(eexists; reflexivity)) Hst).
      destruct Hend as [(q & s' & Hq & Hfail) | (Hall & Heq)].
      * left. destruct q as [| a q]; [discriminate |].
        injection Hq as -> Hq. exists q, s'. split; assumption.
      * right. apply Forall_cons in Hall. destruct Hall as (_ & Hall).
        split; [exact Hall |]. simpl in Heq. simpl. congruence.
Qed.

Lemma forallb_fails (q : list (list byte)) s :
  snd (hs_scan db s) = false ->
  forallb (fun t => snd (hs_scan db t)) (q ++ [s]) = false.
Proof.
  intros Hf. rewrite forallb_app. simpl. rewrite Hf.
  rewrite andb_false_r. reflexivity.
Qed.

Lemma forallb_succeeds (p : list (list byte)) :
  Forall (fun s => snd (hs_scan db s) = true) p ->
  forallb (fun t => snd (hs_scan db t)) p = true.
Proof.
  induction 1 as [| s r Hs _ IH]; simpl; [reflexivity |].
  rewrite Hs, IH. reflexivity.
Qed.

Lemma text_of_plain (l : list byte) :
  is_nul (hd x00 l) = false -> text_of l = before_nul l /\ skip_nuls l <> [].
Proof.
  destruct l as [| b r]; cbn [hd]; [discriminate |].
  intros Hb. unfold text_of. cbn [skip_nuls]. rewrite Hb.
  split; [reflexivity | discriminate].
Qed.

End Versions.

(** X11.  Batching does not change what the caller is told.  Over the
    same database and file, with the same line buffer size, no quota and
    no read that starts with a zero byte, a constructed session of the
    batching library and a session of the library without batching both
    return; the records of the batches, in order, are the calls of the
    callback of the other, in order; the texts scanned are the same; and
    the statuses are equal. *)
Theorem batching_preserves_the_event_stream
    heap pheap compile file patterns pattern_flags elements db ev bs bc :
  valid_config bc 0 ->
  constructs heap (effective_count bc 0) ->
  Py.state_ok pheap = true ->
  Py.scratch_ok pheap = true ->
  Py.init_hs_db pheap compile patterns pattern_flags (to_int elements)
  = Py.Done (Some db, 0, ev) ->
  buf_ok heap = Py.buf_ok pheap ->
  Forall (fun l => is_nul (hd x00 l) = false) (lines_read heap file bs) ->
  exists rep prep,
    hyperscan heap file (Some db) bs bc 0 = Done rep
    /\ Py.hyperscan pheap compile file patterns pattern_flags elements bs
       = Py.Done prep
    /\ map to_event (records (batches rep)) = Py.reported prep
    /\ spans rep = Py.spans prep
    /\ ret rep = Py.ret prep.
Proof.
  intros Hv Hc Hs Hsc Hinit Hbuf Hplain.
  assert (Htexts : map text_of (lines_read heap file bs)
                   = map before_nul (lines_read heap file bs)).
  { induction Hplain as [| l rest Hl _ IH]; [reflexivity |].
    simpl. rewrite IH, (proj1 (text_of_plain l Hl)). reflexivity. }
  assert (Hlines : Py.lines_read pheap file bs = lines_read heap file bs).
  { unfold Py.lines_read, lines_read. rewrite Hbuf. reflexivity. }
  assert (Hnz : Forall (fun l => skip_nuls l <> []) (lines_read heap file bs)).
  { eapply Forall_impl; [exact Hplain |].
    intros l Hl. exact (proj2 (text_of_plain l Hl)). }
  destruct (hyperscan_returns heap file db bs bc 0 Hv Hc Hnz) as (Hret & Hviews).
  pose proof (hyperscan_session heap file db bs bc 0 Hv Hc) as Hpost.
  pose proof (hyperscan_status_cases heap file (Some db) bs bc 0 Hv) as Hstat.
  cbv zeta in Hstat.
  destruct (py_hyperscan_spec pheap compile file patterns pattern_flags elements
              bs db ev Hs Hsc Hinit) as (prep & Hprun & Hprep & Hpsp & Hpret).
  cbv zeta in Hprep, Hpsp, Hpret. rewrite Hlines, <- Htexts in Hprep, Hpsp, Hpret.
  unfold session_post in Hpost. rewrite Hviews in Hpost.
  destruct (hyperscan heap file (Some db) bs bc 0) as [rep | f rep];
    [| contradiction].
  cbn [carried] in Hpost, Hstat.
  destruct Hpost as (Hpre & Hst & _ & _ & _ & Hdone).
  destruct (Hdone rep eq_refl) as (Hrec & Hend).
  assert (Hspans : spans rep = scanned_texts db (map text_of (lines_read heap file bs))).
  { apply (scanned_texts_char db _ _ 0 Hpre Hst).
    destruct Hend as [(_ & Hlast) | (_ & Hok & [(Hall & _) | Hq])];
      [left; exact Hlast | right; split; assumption | lia]. }
  exists rep, prep. split; [reflexivity |]. split; [exact Hprun |].
  split; [rewrite Hprep, Hrec, Hspans; reflexivity |].
  split; [rewrite Hpsp; exact Hspans |].
  rewrite Hpret, <- Hspans.
  destruct Hend as [(Hr & q & s & Hq & Hfail) | (Hr & Hok & _)].
  - rewrite Hq, (forallb_fails db q s Hfail). exact Hr.
  - rewrite (forallb_succeeds db _ Hok).
    unfold constructs, allocates in *.
    destruct file;
      intuition (try congruence; try discriminate).
Qed.

Lemma batching_preserves_the_event_stream_witness :
  exists rep prep,
    hyperscan (heap_ok []) (Some three_lines) (Some foo_bar) 100 2 0 = Done rep
    /\ Py.hyperscan py_heap_ok (fun _ _ _ _ => Some foo_bar) (Some three_lines)
         ["foo"%string; "bar"%string] [14; 14] 2 100
       = Py.Done prep
    /\ map to_event (records (batches rep)) = Py.reported prep
    /\ spans rep = Py.spans prep
    /\ ret rep = Py.ret prep.
Proof.
  apply (batching_preserves_the_event_stream (heap_ok []) py_heap_ok
           (fun _ _ _ _ => Some foo_bar) (Some three_lines)
           ["foo"%string; "bar"%string] [14; 14] 2 foo_bar
           [Py.Acquire Py.RIds; Py.Acquire Py.RFlags;
            Py.Release Py.RFlags; Py.Release Py.RIds] 100 2).
  - unfold valid_config, INT_MAX, ULLONG_MAX. lia.
  - repeat split; reflexivity.
  - reflexivity.
  - reflexivity.
  - reflexivity.
  - reflexivity.
  - vm_compute. repeat constructor.
Defined.

Section PyBalance.

(** A trace given in full is balanced when it has no event twice and
    releases exactly the resources it acquires. *)
Lemma py_trace_balanced (l : list Py.res_event) :
  bool_decide (NoDup l) = true ->
  forallb (fun r => bool_decide (Py.Release r ∈ l <-> Py.Acquire r ∈ l))
          [Py.RState; Py.RDatabase; Py.RScratch; Py.RFile; Py.RBuf;
           Py.RIds; Py.RFlags; Py.RError] = true ->
  NoDup l /\ forall r, In (Py.Release r) l <-> In (Py.Acquire r) l.
Proof.
  intros Hnd Hall. apply bool_decide_eq_true_1 in Hnd.
  split; [exact Hnd |].
  intros r. rewrite <- !list_elem_of_In.
  rewrite forallb_forall in Hall.
  assert (Hr : bool_decide (Py.Release r ∈ l <-> Py.Acquire r ∈ l) = true)
    by (apply Hall; destruct r; simpl; tauto).
  apply bool_decide_eq_true_1 in Hr. exact Hr.
Qed.

End PyBalance.

(** X12.  The library without batching has no leak: whenever its
    session returns, with whatever status, the trace of allocations has
    no event twice and releases exactly the resources it acquired: the
    state, the database, the scratch, the file, the read buffer, and the
    arrays and the compile error of [init_hs_db]. *)
Theorem unbatched_session_releases_what_it_acquired
    heap compile file patterns pattern_flags elements bufSize rep :
  Py.hyperscan heap compile file patterns pattern_flags elements bufSize
  = Py.Done rep ->
  NoDup (Py.resources rep)
  /\ forall r, In (Py.Release r) (Py.resources rep)
              <-> In (Py.Acquire r) (Py.resources rep).
Proof.
  unfold Py.hyperscan, Py.init_hs_db.
  destruct (Py.state_ok heap); cbn [negb]; [| discriminate].
  destruct (Py.ids_ok heap), (Py.flags_ok heap), (0 <=? to_int elements);
    cbn [andb negb];
    try (intros [= <-]; apply py_trace_balanced; reflexivity).
  destruct (Py.fill _ _ _ _ _) as [[ids fl] | i]; [| discriminate].
  destruct (compile patterns fl ids (to_int elements)) as [db |];
    [| intros [= <-]; apply py_trace_balanced; reflexivity].
  destruct (Py.scratch_ok heap); cbn [negb];
    [| intros [= <-]; apply py_trace_balanced; reflexivity].
  unfold Py.hyperscan_gz.
  match goal with
  | |- context [Py.scan_loop db ?ls ?r ?w] =>
      destruct (py_scan_loop db ls r w) as (w' & Hrun & _)
  end.
  cbv zeta in Hrun. rewrite Hrun.
  destruct file, (Py.buf_ok heap);
    intros [= <-]; apply py_trace_balanced; reflexivity.
Qed.

Lemma unbatched_session_releases_what_it_acquired_witness :
  let rep :=
    Py.carried (Py.hyperscan py_heap_ok literal_compiler (Some three_lines)
                  ["foo"%string; "bar"%string] [14; 14] 2 100) in
  NoDup (Py.resources rep)
  /\ forall r, In (Py.Release r) (Py.resources rep)
              <-> In (Py.Acquire r) (Py.resources rep).
Proof.
  apply (unbatched_session_releases_what_it_acquired py_heap_ok literal_compiler
           (Some three_lines) ["foo"%string; "bar"%string] [14; 14] 2 100).
  vm_compute. reflexivity.
Defined.

Section PyStatus.

(** [init_hs_db] when the caller supplies at least [elements] flags:
    the database with status 0, or no database and another status. *)
Lemma py_init_cases heap (compile : Py.compiler) expressions expression_flags elements :
  0 <= elements <= Z.of_nat (length expression_flags) ->
  let n := Z.to_nat elements in
  let compiled := compile expressions (take n expression_flags)
                          (map Z.of_nat (seq 0 n)) elements in
  (exists db ev,
     Py.ids_ok heap = true /\ Py.flags_ok heap = true /\ compiled = Some db
     /\ Py.init_hs_db heap compile expressions expression_flags elements
        = Py.Done (Some db, 0, ev))
  \/ (exists st ev,
        (Py.ids_ok heap = false \/ Py.flags_ok heap = false \/ compiled = None)
        /\ (st = HYPERSCANNER_COMPILE_MEM \/ st = HYPERSCANNER_COMPILE)
        /\ Py.init_hs_db heap compile expressions expression_flags elements
           = Py.Done (None, st, ev)).
Proof.
  intros Hel. cbv zeta. unfold Py.init_hs_db.
  replace (0 <=? elements) with true by (symmetry; apply Z.leb_le; lia).
  rewrite !andb_true_r.
  destruct (Py.ids_ok heap) eqn:Hids; cbn [andb negb];
    [| right; eexists _, _; split; [left; reflexivity |];
       split; [left; reflexivity | reflexivity]].
  destruct (Py.flags_ok heap) eqn:Hfl; cbn [andb negb];
    [| right; eexists _, _; split; [right; left; reflexivity |];
       split; [left; reflexivity | reflexivity]].
  rewrite fill_spec by (rewrite ?length_replicate; lia).
  simpl take. simpl app. rewrite drop_0.
  destruct (compile expressions _ _ elements) as [db |] eqn:Hc.
  - left. eexists _, _. repeat split; reflexivity.
  - right. eexists _, _. split; [right; right; reflexivity |].
    split; [right; reflexivity | reflexivity].
Qed.

End PyStatus.

(** X13.  The status of a session of the library without batching, once
    its state is allocated and the caller supplies at least [elements]
    flags, [elements] fitting an [int]: the session returns, and its status is [HYPERSCANNER_DB]
    exactly when [init_hs_db] fails, be it on an allocation or on the
    compilation, whose own status is dropped; [HYPERSCANNER_SCRATCH]
    exactly when the database is built and the scratch is not;
    [HYPERSCANNER_GZ_OPEN] exactly when both are built and the file
    cannot be opened; and nothing is scanned or reported unless both
    are built. *)
Theorem unbatched_status_names_the_failure
    heap compile file patterns pattern_flags elements bufSize :
  Py.state_ok heap = true ->
  0 <= elements <= Z.of_nat (length pattern_flags) ->
  elements <= INT_MAX ->
  let n := Z.to_nat elements in
  let compiled := compile patterns (take n pattern_flags)
                          (map Z.of_nat (seq 0 n)) elements in
  let built :=
    Py.ids_ok heap = true /\ Py.flags_ok heap = true /\ compiled <> None in
  exists rep,
    Py.hyperscan heap compile file patterns pattern_flags elements bufSize
    = Py.Done rep
    /\ (Py.ret rep = HYPERSCANNER_DB <-> ~ built)
    /\ (Py.ret rep = HYPERSCANNER_SCRATCH
        <-> built /\ Py.scratch_ok heap = false)
    /\ (Py.ret rep = HYPERSCANNER_GZ_OPEN
        <-> built /\ Py.scratch_ok heap = true /\ file = None)
    /\ Py.ret rep <> HYPERSCANNER_COMPILE
    /\ Py.ret rep <> HYPERSCANNER_COMPILE_MEM
    /\ (~ built \/ Py.scratch_ok heap = false ->
        Py.reported rep = [] /\ Py.spans rep = []).
Proof.
  intros Hs Hel Hint. cbv zeta.
  assert (E : to_int elements = elements)
    by (apply to_int_small; unfold INT_MAX in *; lia).
  destruct (py_init_cases heap compile patterns pattern_flags elements Hel)
    as [(db & ev & Hids & Hfl & Hc & Hinit) | (st & ev & Hno & Hst & Hinit)];
    cbv zeta in *; rewrite <- E in Hinit.
  - destruct (Py.scratch_ok heap) eqn:Hsc.
    + destruct (py_hyperscan_spec heap compile file patterns pattern_flags
                  elements bufSize db ev Hs Hsc Hinit)
        as (rep & Hrun & _ & Hsp & Hret).
      exists rep. split; [exact Hrun |]. rewrite Hret, Hc, Hids, Hfl.
      cbv zeta in Hsp.
      destruct (forallb _ _) eqn:Hall.
      * destruct file; cbn;
          unfold HYPERSCANNER_DB, HYPERSCANNER_SCRATCH, HYPERSCANNER_GZ_OPEN,
            HYPERSCANNER_COMPILE, HYPERSCANNER_COMPILE_MEM;
          intuition (try congruence; try discriminate; try lia).
      * destruct file as [content |].
        -- unfold HYPERSCANNER_DB, HYPERSCANNER_SCRATCH, HYPERSCANNER_GZ_OPEN,
             HYPERSCANNER_COMPILE, HYPERSCANNER_COMPILE_MEM, HYPERSCANNER_SCAN;
             intuition (try congruence; try discriminate; try lia).
        -- simpl in Hall. discriminate.
    + unfold Py.hyperscan. rewrite Hs, Hinit, Hsc. cbn [negb Py.cleanup].
      eexists. split; [reflexivity |]. cbn [Py.ret Py.reported Py.spans].
      rewrite Hc, Hids, Hfl.
      unfold HYPERSCANNER_DB, HYPERSCANNER_SCRATCH, HYPERSCANNER_GZ_OPEN,
        HYPERSCANNER_COMPILE, HYPERSCANNER_COMPILE_MEM;
        intuition (try congruence; try discriminate; try lia).
  - unfold Py.hyperscan. rewrite Hs, Hinit. cbn [negb Py.cleanup].
    eexists. split; [reflexivity |]. cbn [Py.ret Py.reported Py.spans].
    unfold HYPERSCANNER_DB, HYPERSCANNER_SCRATCH, HYPERSCANNER_GZ_OPEN,
      HYPERSCANNER_COMPILE, HYPERSCANNER_COMPILE_MEM;
      intuition (try congruence; try discriminate; try lia).
Qed.

Lemma unbatched_status_names_the_failure_witness :
  let heap := Py.mk_allocator true true true false true [] 0 in
  let compiled := literal_compiler ["foo"%string; "bar"%string]
                    (take (Z.to_nat 2) [14; 14])
                    (map Z.of_nat (seq 0 (Z.to_nat 2))) 2 in
  let built :=
    Py.ids_ok heap = true /\ Py.flags_ok heap = true /\ compiled <> None in
  exists rep,
    Py.hyperscan heap literal_compiler (Some three_lines)
                 ["foo"%string; "bar"%string] [14; 14] 2 100
    = Py.Done rep
    /\ (Py.ret rep = HYPERSCANNER_DB <-> ~ built)
    /\ (Py.ret rep = HYPERSCANNER_SCRATCH
        <-> built /\ Py.scratch_ok heap = false)
    /\ (Py.ret rep = HYPERSCANNER_GZ_OPEN
        <-> built /\ Py.scratch_ok heap = true /\ Some three_lines = None)
    /\ Py.ret rep <> HYPERSCANNER_COMPILE
    /\ Py.ret rep <> HYPERSCANNER_COMPILE_MEM
    /\ (~ built \/ Py.scratch_ok heap = false ->
        Py.reported rep = [] /\ Py.spans rep = []).
Proof.
  apply (unbatched_status_names_the_failure
           (Py.mk_allocator true true true false true [] 0) literal_compiler
           (Some three_lines) ["foo"%string; "bar"%string] [14; 14] 2 100).
  - reflexivity.
  - simpl. lia.
  - unfold INT_MAX. lia.
Defined.

(** X14.  The standalone tool of the library without batching, from the
    command line to the callback, [argc] being an [int].  With a file
    name and at least one pattern, every allocation succeeding and the patterns compiling
    under the ids 0, 1, ... and the flags DOTALL, MULTILINE and
    SINGLEMATCH each, [main] returns the status of one session over the
    file read with a buffer of 65535 bytes, having called the handler
    once per occurrence, in order, with the index and the text of its
    read; with fewer arguments it returns -1 and scans nothing. *)
Theorem unbatched_main_end_to_end heap compile fs argv db :
  Py.state_ok heap = true ->
  Py.ids_ok heap = true ->
  Py.flags_ok heap = true ->
  Py.scratch_ok heap = true ->
  Z.of_nat (length argv) <= INT_MAX ->
  let patterns := drop 2 argv in
  let n := length patterns in
  compile patterns (replicate n 14) (map Z.of_nat (seq 0 n)) (Z.of_nat n)
  = Some db ->
  let file := fs (nth 1 argv EmptyString) in
  let texts := scanned_texts db (map before_nul (Py.lines_read heap file 65535)) in
  Z.of_nat (length (Py.lines_read heap file 65535)) <= 2 ^ 64 ->
  if (length argv <? 3)%nat then Py.main heap compile fs argv = inl (-1)
  else
    exists rep,
      Py.main heap compile fs argv = inr (Py.Done rep)
      /\ Py.reported rep = map to_event (occurrences db 0 texts)
      /\ Py.spans rep = texts
      /\ Py.ret rep
         = if forallb (fun t => snd (hs_scan db t)) texts
           then match file with Some _ => 0 | None => HYPERSCANNER_GZ_OPEN end
           else HYPERSCANNER_SCAN.
Proof.
  intros Hs Hids Hfl Hsc Hargc. cbv zeta. intros Hc Hlen.
  destruct argv as [| prog [| name [| p ps]]]; try reflexivity.
  cbn [length Nat.ltb Nat.leb]. cbn [drop nth] in *.
  set (patterns := p :: ps) in *.
  assert (Hn : Z.of_nat (length patterns) <= INT_MAX)
    by (subst patterns; cbn [length] in Hargc |- *; lia).
  set (n := length patterns) in *.
  assert (E : to_int (Z.of_nat n) = Z.of_nat n)
    by (apply to_int_small; unfold INT_MAX in *; lia).
  assert (Hinit : Py.init_hs_db heap compile patterns
                    (replicate n (Z.lor (Z.lor HS_FLAG_DOTALL HS_FLAG_MULTILINE)
                                        HS_FLAG_SINGLEMATCH))
                    (to_int (Z.of_nat n))
                  = Py.Done (Some db, 0,
                             [Py.Acquire Py.RIds; Py.Acquire Py.RFlags;
                              Py.Release Py.RFlags; Py.Release Py.RIds])).
  { rewrite E. unfold Py.init_hs_db. rewrite Hids, Hfl.
    replace (0 <=? Z.of_nat n) with true by (symmetry; apply Z.leb_le; lia).
    cbn [andb negb].
    rewrite fill_spec by (rewrite ?length_replicate; lia).
    rewrite !take_0, !app_nil_l, drop_0, Nat2Z.id.
    rewrite take_ge by (rewrite length_replicate; lia).
    change (Z.lor (Z.lor HS_FLAG_DOTALL HS_FLAG_MULTILINE) HS_FLAG_SINGLEMATCH)
      with 14.
    rewrite Hc. reflexivity. }
  destruct (py_hyperscan_spec heap compile (fs name) patterns _ (Z.of_nat n)
              65535 db _ Hs Hsc Hinit) as (rep & Hrun & Hrep & Hsp & Hret).
  exists rep. unfold Py.main. fold patterns. fold n.
  split; [rewrite Hrun; reflexivity |].
  split; [| split; assumption].
  rewrite Hrep. f_equal. apply numbered_occurrences; [lia |].
  pose proof (length_scanned_texts db
                (map before_nul (Py.lines_read heap (fs name) 65535))) as Hle.
  rewrite length_map in Hle. lia.
Qed.

Lemma unbatched_main_end_to_end_witness :
  let argv := ["hyperscanner"; "log"; "foo"; "bar"]%string in
  let fs := fun _ : string => Some three_lines in
  let texts :=
    scanned_texts foo_bar (map before_nul (Py.lines_read py_heap_ok (Some three_lines) 65535)) in
  exists rep,
    Py.main py_heap_ok (fun _ _ _ _ => Some foo_bar) fs argv = inr (Py.Done rep)
    /\ Py.reported rep = map to_event (occurrences foo_bar 0 texts)
    /\ Py.spans rep = texts
    /\ Py.ret rep
       = if forallb (fun t => snd (hs_scan foo_bar t)) texts
         then 0 else HYPERSCANNER_SCAN.
Proof.
  apply (unbatched_main_end_to_end py_heap_ok (fun _ _ _ _ => Some foo_bar)
           (fun _ : string => Some three_lines)
           ["hyperscanner"; "log"; "foo"; "bar"]%string foo_bar).
  - reflexivity.
  - reflexivity.
  - reflexivity.
  - reflexivity.
  - vm_compute. discriminate.
  - reflexivity.
  - vm_compute. discriminate.
Defined.
